(** * Elastic: an adapter over the elasticsearch client

    A shallow embedding of [src/Elastic.ts] (and of the earlier revision of
    the same class kept next to it).  The adapter is a thin class whose
    methods await calls on a third-party client, so a method is embedded as
    a finite program over client events: every [await] is one [Call] node,
    [try]/[catch] is a combinator on programs, and a client (the library
    plus the remote store) is an interpreter of events over a world. *)

From Stdlib Require Import String Ascii ZArith NArith List Bool Lia.
From stdpp Require Import gmap strings list pretty.

Local Open Scope string_scope.
Local Open Scope Z_scope.

(** ** JavaScript values

    Only what the adapter inspects at run time: the [typeof] of the
    arguments of [establish], the property reads [e.body.found] on a caught
    value, and the string conversion in ["..." + e].  [VNum] holds the
    integer-valued numbers (status codes); [VError] is an instance of
    [Error] or of one of its subclasses, [props] being its own further
    properties. *)

#[warnings="-register-all"]
Inductive JsVal : Type :=
| VUndefined
| VNull
| VBool (b : bool)
| VNum (n : Z)
| VStr (s : string)
| VObj (props : list (string * JsVal))
| VError (name message : string) (props : list (string * JsVal)).

(** [typeof v] *)
Definition typeof (v : JsVal) : string :=
  match v with
  | VUndefined => "undefined"
  | VNull => "object"
  | VBool _ => "boolean"
  | VNum _ => "number"
  | VStr _ => "string"
  | VObj _ => "object"
  | VError _ _ _ => "object"
  end.

(** [String(v)], the conversion applied to the right operand of
    [aString + v].  An [Error] prints through [Error.prototype.toString]:
    the name, the message, or both separated by a colon. *)
Definition to_string (v : JsVal) : string :=
  match v with
  | VUndefined => "undefined"
  | VNull => "null"
  | VBool true => "true"
  | VBool false => "false"
  | VNum n => pretty n
  | VStr s => s
  | VObj _ => "[object Object]"
  | VError name message _ =>
      if String.eqb name "" then message
      else if String.eqb message "" then name
      else name +:+ ": " +:+ message
  end.

(** [new Error(msg)] *)
Definition Error (msg : string) : JsVal := VError "Error" msg [].

(** The [TypeError] of a property read on [undefined] or [null]. *)
Definition TypeError_read (base : JsVal) (p : string) : JsVal :=
  VError "TypeError"
    ("Cannot read properties of " +:+ to_string base +:+ " (reading '" +:+ p +:+ "')") [].

Fixpoint assoc (p : string) (props : list (string * JsVal)) : JsVal :=
  match props with
  | [] => VUndefined
  | (k, v) :: rest => if String.eqb k p then v else assoc p rest
  end.

(** [v.p] for a data property [p]: a read on [undefined] or [null] throws,
    a read of a property the value does not have gives [undefined].  The
    adapter reads [body] and [found] only, which no primitive has. *)
Definition read_prop (v : JsVal) (p : string) : JsVal + JsVal :=
  match v with
  | VUndefined | VNull => inr (TypeError_read v p)
  | VBool _ | VNum _ | VStr _ => inl VUndefined
  | VObj props => inl (assoc p props)
  | VError name message props =>
      if String.eqb p "name" then inl (VStr name)
      else if String.eqb p "message" then inl (VStr message)
      else inl (assoc p props)
  end.

(** [v === false] *)
Definition is_false (v : JsVal) : bool :=
  match v with
  | VBool false => true
  | _ => false
  end.

(** ** Regular expressions

    A matcher by derivatives, for the anchored pattern of [validateIndex]
    and for the pattern of the earlier revision's search. *)

Inductive Re : Type :=
| ReNone
| ReEps
| ReClass (p : ascii -> bool)
| ReCat (a b : Re)
| ReAlt (a b : Re)
| ReStar (a : Re).

Fixpoint nullable (r : Re) : bool :=
  match r with
  | ReNone => false
  | ReEps => true
  | ReClass _ => false
  | ReCat a b => nullable a && nullable b
  | ReAlt a b => nullable a || nullable b
  | ReStar _ => true
  end.

Fixpoint deriv (c : ascii) (r : Re) : Re :=
  match r with
  | ReNone => ReNone
  | ReEps => ReNone
  | ReClass p => if p c then ReEps else ReNone
  | ReCat a b =>
      if nullable a then ReAlt (ReCat (deriv c a) b) (deriv c b)
      else ReCat (deriv c a) b
  | ReAlt a b => ReAlt (deriv c a) (deriv c b)
  | ReStar a => ReCat (deriv c a) (ReStar a)
  end.

(** The whole string matches [r] (a pattern between [^] and [$]). *)
Fixpoint re_match (r : Re) (s : string) : bool :=
  match s with
  | EmptyString => nullable r
  | String c s' => re_match (deriv c r) s'
  end.

Definition RePlus (a : Re) : Re := ReCat a (ReStar a).

Definition in_range (lo hi c : ascii) : bool :=
  (N_of_ascii lo <=? N_of_ascii c)%N && (N_of_ascii c <=? N_of_ascii hi)%N.

(** The class [[a-z0-9\-]]; a character outside ASCII is outside the class
    however it is encoded. *)
Definition index_char (c : ascii) : bool :=
  in_range "a" "z" c || in_range "0" "9" c || Ascii.eqb c "-".

(** [/^[a-z0-9\-]+$/] *)
Definition index_re : Re := RePlus (ReClass index_char).

(** ** Documents and responses *)

Definition DocumentId := string.

(** A field value: [string | string[]] *)
Inductive FieldValue : Type :=
| FStr (s : string)
| FArr (l : list string).

(** [type Body = { [key: string]: string | string[] }] *)
Abbreviation Body := (gmap string FieldValue).

(** What the client resolves with: the parsed body and the status code. *)
Record ApiResponse (B : Type) : Type := mkResponse {
  body : B;
  statusCode : Z
}.
Arguments mkResponse {B} _ _.
Arguments body {B} _.
Arguments statusCode {B} _.

(** Body of the answer to an index request. *)
Record IndexBody : Type := mkIndexBody {
  result : string;
  _id : DocumentId
}.

(** A stored document as [get] and the hits of [search] return it. *)
Record Envelope : Type := mkEnvelope {
  env_id : DocumentId;
  _source : Body
}.

(** Body of the answer to a search: [hits] stands for [body.hits.hits]. *)
Record SearchBody : Type := mkSearchBody {
  hits : list Envelope
}.

(** ** Client events *)

(** The connection handle, bound to its node address when constructed. *)
Record ClientHandle : Type := mkClient {
  node : string
}.

Inductive Query : Type :=
| MatchAll
| Match (field query : string)
| Regexp (field pattern : string).

(** [sort: [{ _uid: { order: "asc" } }]] *)
Inductive Sort : Type :=
| UidAsc.

(** The client methods the adapter calls, with the parameters it passes;
    [refresh] of [Delete] is optional because the earlier revision leaves
    it out. *)
Inductive Method : Type -> Type :=
| Info : Method (ApiResponse JsVal)
| Index (index type : string) (doc : Body) (refresh : string) :
    Method (ApiResponse IndexBody)
| Get (index type : string) (id : DocumentId) : Method (ApiResponse Envelope)
| Update (index type : string) (id : DocumentId) (doc : Body) (refresh : string) :
    Method (ApiResponse JsVal)
| Search (index type : string) (query : Query) (sort : list Sort) :
    Method (ApiResponse SearchBody)
| Delete (index type : string) (id : DocumentId) (refresh : option string) :
    Method (ApiResponse JsVal)
| IndicesDelete (index : string) (ignore : list Z) : Method (ApiResponse JsVal)
| IndicesRefresh (index : string) : Method (ApiResponse JsVal)
| Close : Method unit.

Inductive Event : Type -> Type :=
| Construct (node : string) : Event ClientHandle
| Invoke {R : Type} (c : ClientHandle) (m : Method R) : Event R.

(** An event as it appears in a trace. *)
Inductive Sent : Type :=
| sent {R : Type} (ev : Event R).

(** ** Programs *)

(** How a promise (or a constructor call) settles. *)
Inductive Outcome (A : Type) : Type :=
| Resolved (a : A)
| Rejected (e : JsVal).
Arguments Resolved {A} _.
Arguments Rejected {A} _.

Definition is_resolved {A : Type} (o : Outcome A) : bool :=
  match o with
  | Resolved _ => true
  | Rejected _ => false
  end.

Inductive Prog (A : Type) : Type :=
| Ret (a : A)
| Throw (e : JsVal)
| Call {R : Type} (ev : Event R) (k : Outcome R -> Prog A).
Arguments Ret {A} _.
Arguments Throw {A} _.
Arguments Call {A R} _ _.

Fixpoint bind {A B : Type} (p : Prog A) (f : A -> Prog B) : Prog B :=
  match p with
  | Ret a => f a
  | Throw e => Throw e
  | Call ev k => Call ev (fun o => bind (k o) f)
  end.

(** [await ev]: the value the event resolves with; a rejection is thrown. *)
Definition await {R : Type} (ev : Event R) : Prog R :=
  Call ev (fun o =>
    match o with
    | Resolved r => Ret r
    | Rejected e => Throw e
    end).

(** [try { p } catch (e) { h e }] *)
Fixpoint try_catch {A : Type} (p : Prog A) (h : JsVal -> Prog A) : Prog A :=
  match p with
  | Ret a => Ret a
  | Throw e => h e
  | Call ev k => Call ev (fun o => try_catch (k o) h)
  end.

(** A property read inside a program. *)
Definition prop (v : JsVal) (p : string) : Prog JsVal :=
  match read_prop v p with
  | inl x => Ret x
  | inr e => Throw e
  end.

Declare Scope prog_scope.
Delimit Scope prog_scope with prog.
Notation "x <- p ;; k" := (bind p (fun x => k))
  (at level 20, p at level 99, k at level 200, only parsing) : prog_scope.
Notation "p ;; k" := (bind p (fun _ => k))
  (at level 100, k at level 200, only parsing, right associativity) : prog_scope.
Local Open Scope prog_scope.

(** ** Running a program against a client *)

(** A client: how each event settles in a world, and the world after. *)
Definition Client (W : Type) : Type := forall R : Type, Event R -> W -> Outcome R * W.

Record Run (A W : Type) : Type := mkRun {
  outcome : Outcome A;
  world : W;
  trace : list Sent
}.
Arguments mkRun {A W} _ _ _.
Arguments outcome {A W} _.
Arguments world {A W} _.
Arguments trace {A W} _.

Definition logged {A W R : Type} (ev : Event R) (r : Run A W) : Run A W :=
  mkRun (outcome r) (world r) (sent ev :: trace r).

Fixpoint run {W A : Type} (c : Client W) (p : Prog A) (w : W) : Run A W :=
  match p with
  | Ret a => mkRun (Resolved a) w []
  | Throw e => mkRun (Rejected e) w []
  | Call ev k =>
      let (o, w') := c _ ev w in
      logged ev (run c (k o) w')
  end.

(** ** The adapter: [src/Elastic.ts] *)

(** An instance of the class: [private constructor(private client: Client)] *)
Record Elastic : Type := mkElastic {
  client : ClientHandle
}.

(** [static async establish(host?: string, port?: string)].  The types are
    erased at run time, so the arguments are arbitrary values. *)
Definition establish (host port : JsVal) : Prog Elastic :=
  if negb (String.eqb (typeof host) "string") then Throw (Error "Host invalid")
  else if negb (String.eqb (typeof port) "string") then Throw (Error "Host invalid")
  else
    client <- await (Construct (to_string host +:+ ":" +:+ to_string port));;
    try_catch
      (await (Invoke client Info);;
       Ret (mkElastic client))
      (fun e => Throw (Error ("Cannot establish elasticsearch connection: " +:+ to_string e))).

(** [validateIndex(name: string)] *)
Definition validateIndex (name : string) : Prog unit :=
  let isNotValid := negb (re_match index_re name) in
  if isNotValid then Throw (Error "Only snake-case allowed") else Ret tt.

(** [async refresh(index: string)] *)
Definition refresh (this : Elastic) (index : string) : Prog unit :=
  await (Invoke (client this) (IndicesRefresh index));;
  Ret tt.

(** [async createDocument(index, type, body)]; the parameter [body] is
    named [doc] and the local [result] is named [response] here. *)
Definition createDocument (this : Elastic) (index type : string) (doc : Body) :
    Prog DocumentId :=
  validateIndex index;;
  response <- await (Invoke (client this) (Index index type doc "true"));;
  refresh this index;;
  if negb (String.eqb (result (body response)) "created") || negb (statusCode response =? 201)
  then Throw (Error "Failed to create document")
  else Ret (_id (body response)).

(** [async getById(index, type, id)]; [None] is [undefined]. *)
Definition getById (this : Elastic) (index type : string) (id : DocumentId) :
    Prog (option Body) :=
  try_catch
    (r <- await (Invoke (client this) (Get index type id));;
     Ret (Some (_source (body r))))
    (fun e =>
       b <- prop e "body";;
       found <- prop b "found";;
       if is_false found then Ret None else Throw e).

(** [async updateDocument(index, type, id, body)] *)
Definition updateDocument (this : Elastic) (index type : string) (id : DocumentId)
    (doc : Body) : Prog bool :=
  try_catch
    (await (Invoke (client this) (Update index type id doc "true"));;
     Ret true)
    (fun _ => Ret false).

(** [async getAll(index, type)] *)
Definition getAll (this : Elastic) (index type : string) : Prog (list Body) :=
  response <- await (Invoke (client this) (Search index type MatchAll [UidAsc]));;
  Ret (map _source (hits (body response))).

(** [async searchByField(index, type, field, query)] *)
Definition searchByField (this : Elastic) (index type field query : string) :
    Prog (list Body) :=
  response <- await (Invoke (client this) (Search index type (Match field query) [UidAsc]));;
  Ret (map _source (hits (body response))).

(** [async deleteDocument(index, type, id)] *)
Definition deleteDocument (this : Elastic) (index type : string) (id : DocumentId) :
    Prog unit :=
  await (Invoke (client this) (Delete index type id (Some "true")));;
  Ret tt.

(** [async deleteIndex(index)] *)
Definition deleteIndex (this : Elastic) (index : string) : Prog bool :=
  await (Invoke (client this) (IndicesDelete index [404]));;
  Ret true.

(** [async close()] *)
Definition close (this : Elastic) : Prog unit :=
  await (Invoke (client this) Close).

(** ** The earlier revision of the class

    The second copy of the class differs from [src/Elastic.ts] in three
    methods: [createDocument] does not validate the name, [searchByField]
    sends a [regexp] query, and [deleteDocument] passes no [refresh]. *)
Module Earlier.

Definition createDocument (this : Elastic) (index type : string) (doc : Body) :
    Prog DocumentId :=
  response <- await (Invoke (client this) (Index index type doc "true"));;
  refresh this index;;
  if negb (String.eqb (result (body response)) "created") || negb (statusCode response =? 201)
  then Throw (Error "Failed to create document")
  else Ret (_id (body response)).

Definition searchByField (this : Elastic) (index type field query : string) :
    Prog (list Body) :=
  response <- await (Invoke (client this)
                (Search index type (Regexp field (".*" +:+ query +:+ ".*")) [UidAsc]));;
  Ret (map _source (hits (body response))).

Definition deleteDocument (this : Elastic) (index type : string) (id : DocumentId) :
    Prog unit :=
  await (Invoke (client this) (Delete index type id None));;
  Ret tt.

End Earlier.

(** ** A reference client

    Modelled from the spec: the elasticsearch client library and the store
    behind it are third-party and not part of the repository, which holds
    only their caller.  [MemClient] is a store in memory that follows the
    spec's description of it: ids are assigned by the store on creation,
    the internal identifier grows with insertion, a refresh makes the prior
    writes of a collection visible to searches, the analyzed [match] policy
    tokenizes on word boundaries and matches whole tokens, the [regexp]
    policy matches the pattern against the raw field, and a failure status
    rejects the call unless the call lists the status under [ignore]. *)

Record Stored : Type := mkStored {
  s_index : string;
  s_type : string;
  s_seq : N;
  s_id : DocumentId;
  s_source : Body
}.

Record Cluster : Type := mkCluster {
  listening : string;        (* the address the store answers at *)
  indices : list string;     (* the collections that exist *)
  docs : list Stored;        (* every document, newest first *)
  searchable : list Stored;  (* the documents searches see *)
  next_seq : N
}.

Definition new_id (n : N) : DocumentId := "doc-" +:+ pretty n.

Definition ResponseError (status : Z) (message : string) (b : JsVal) : JsVal :=
  VError "ResponseError" message [("body", b); ("statusCode", VNum status)].

Definition ConnectionError : JsVal :=
  VError "ConnectionError" "connect ECONNREFUSED" [].

Definition index_not_found (index : string) : JsVal :=
  VObj [("error", VObj [("type", VStr "index_not_found_exception"); ("index", VStr index)]);
        ("status", VNum 404)].

Definition document_missing : JsVal :=
  VObj [("error", VObj [("type", VStr "document_missing_exception")]); ("status", VNum 404)].

Definition not_found (index type : string) (id : DocumentId) : JsVal :=
  VObj [("_index", VStr index); ("_type", VStr type); ("_id", VStr id); ("found", VBool false)].

Definition acknowledged : JsVal := VObj [("acknowledged", VBool true)].

Definition has_index (index : string) (w : Cluster) : bool :=
  existsb (String.eqb index) (indices w).

Definition is_doc (index type : string) (id : DocumentId) (s : Stored) : bool :=
  String.eqb (s_index s) index && String.eqb (s_type s) type && String.eqb (s_id s) id.

Definition in_index (index : string) (s : Stored) : bool := String.eqb (s_index s) index.

(** A refresh: searches on [index] see its documents as they are now. *)
Definition refreshed (index : string) (w : Cluster) : Cluster :=
  mkCluster (listening w) (indices w) (docs w)
    (List.filter (in_index index) (docs w)
       ++ List.filter (fun s => negb (in_index index s)) (searchable w))
    (next_seq w).

Definition refresh_if (b : bool) (index : string) (w : Cluster) : Cluster :=
  if b then refreshed index w else w.

Definition wants_refresh (refresh : string) : bool :=
  String.eqb refresh "true" || String.eqb refresh "wait_for".

(** Word characters; a token is a maximal run of them. *)
Definition is_word_char (c : ascii) : bool :=
  in_range "a" "z" c || in_range "A" "Z" c || in_range "0" "9" c.

Definition flush (cur : string) : list string :=
  if String.eqb cur "" then [] else [cur].

Fixpoint tokenize_from (cur s : string) : list string :=
  match s with
  | EmptyString => flush cur
  | String c s' =>
      if is_word_char c then tokenize_from (cur +:+ String c "") s'
      else flush cur ++ tokenize_from "" s'
  end.

Definition tokenize (s : string) : list string := tokenize_from "" s.

Definition values (v : FieldValue) : list string :=
  match v with
  | FStr s => [s]
  | FArr l => l
  end.

(** The analyzed-term policy: some token of the query is a token of the field. *)
Definition match_terms (query : string) (v : FieldValue) : bool :=
  let terms := flat_map tokenize (values v) in
  existsb (fun q => existsb (String.eqb q) terms) (tokenize query).

Definition atom (c : ascii) : Re :=
  if Ascii.eqb c "." then ReClass (fun _ => true) else ReClass (Ascii.eqb c).

(** Patterns of literal characters, [.] and a postfix [*]. *)
Fixpoint parse_re (s : string) : Re :=
  match s with
  | EmptyString => ReEps
  | String c s1 =>
      match s1 with
      | String d rest =>
          if Ascii.eqb d "*" then ReCat (ReStar (atom c)) (parse_re rest)
          else ReCat (atom c) (parse_re s1)
      | EmptyString => ReCat (atom c) (parse_re s1)
      end
  end.

(** The regexp policy: the pattern matches a raw value of the field. *)
Definition match_regexp (pattern : string) (v : FieldValue) : bool :=
  existsb (re_match (parse_re pattern)) (values v).

Definition satisfies (q : Query) (s : Stored) : bool :=
  match q with
  | MatchAll => true
  | Match field query =>
      match s_source s !! field with
      | Some v => match_terms query v
      | None => false
      end
  | Regexp field pattern =>
      match s_source s !! field with
      | Some v => match_regexp pattern v
      | None => false
      end
  end.

Fixpoint insert_by_seq (s : Stored) (l : list Stored) : list Stored :=
  match l with
  | [] => [s]
  | x :: rest => if (s_seq s <=? s_seq x)%N then s :: l else x :: insert_by_seq s rest
  end.

(** Ascending internal identifier. *)
Definition sort_by_seq (l : list Stored) : list Stored :=
  fold_right insert_by_seq [] l.

Definition envelope (s : Stored) : Envelope := mkEnvelope (s_id s) (s_source s).

Definition rejected404 {R : Type} (message : string) (b : JsVal) (w : Cluster) :
    Outcome R * Cluster :=
  (Rejected (ResponseError 404 message b), w).

Definition mem_index (index type : string) (doc : Body) (refresh : string) (w : Cluster) :
    Outcome (ApiResponse IndexBody) * Cluster :=
  let id := new_id (next_seq w) in
  let stored := mkStored index type (next_seq w) id doc in
  let w' :=
    mkCluster (listening w)
      (if has_index index w then indices w else index :: indices w)
      (stored :: docs w) (searchable w) (N.succ (next_seq w)) in
  (Resolved (mkResponse (mkIndexBody "created" id) 201),
   refresh_if (wants_refresh refresh) index w').

Definition mem_get (index type : string) (id : DocumentId) (w : Cluster) :
    Outcome (ApiResponse Envelope) * Cluster :=
  if negb (has_index index w) then
    rejected404 "index_not_found_exception" (index_not_found index) w
  else
    match List.find (is_doc index type id) (docs w) with
    | Some s => (Resolved (mkResponse (envelope s) 200), w)
    | None => rejected404 "Response Error" (not_found index type id) w
    end.

(** A partial update: the supplied fields replace the stored ones. *)
Definition merged (index type : string) (id : DocumentId) (doc : Body) (s : Stored) : Stored :=
  if is_doc index type id s
  then mkStored (s_index s) (s_type s) (s_seq s) (s_id s) (doc ∪ s_source s)
  else s.

Definition mem_update (index type : string) (id : DocumentId) (doc : Body)
    (refresh : string) (w : Cluster) : Outcome (ApiResponse JsVal) * Cluster :=
  if negb (has_index index w) then
    rejected404 "index_not_found_exception" (index_not_found index) w
  else if existsb (is_doc index type id) (docs w) then
    let w' :=
      mkCluster (listening w) (indices w) (map (merged index type id doc) (docs w))
        (searchable w) (next_seq w) in
    (Resolved (mkResponse (VObj [("result", VStr "updated")]) 200),
     refresh_if (wants_refresh refresh) index w')
  else rejected404 "document_missing_exception" document_missing w.

Definition mem_search (index type : string) (q : Query) (sort : list Sort) (w : Cluster) :
    Outcome (ApiResponse SearchBody) * Cluster :=
  if negb (has_index index w) then
    rejected404 "index_not_found_exception" (index_not_found index) w
  else
    let found :=
      List.filter
        (fun s => String.eqb (s_index s) index && String.eqb (s_type s) type && satisfies q s)
        (searchable w) in
    let ordered :=
      match sort with
      | UidAsc :: _ => sort_by_seq found
      | [] => found
      end in
    (Resolved (mkResponse (mkSearchBody (map envelope ordered)) 200), w).

Definition mem_delete (index type : string) (id : DocumentId) (refresh : option string)
    (w : Cluster) : Outcome (ApiResponse JsVal) * Cluster :=
  if negb (has_index index w) then
    rejected404 "index_not_found_exception" (index_not_found index) w
  else if existsb (is_doc index type id) (docs w) then
    let w' :=
      mkCluster (listening w) (indices w)
        (List.filter (fun s => negb (is_doc index type id s)) (docs w))
        (searchable w) (next_seq w) in
    (Resolved (mkResponse (VObj [("found", VBool true); ("result", VStr "deleted")]) 200),
     refresh_if (from_option wants_refresh false refresh) index w')
  else
    rejected404 "Response Error"
      (VObj [("_index", VStr index); ("_type", VStr type); ("_id", VStr id);
             ("found", VBool false); ("result", VStr "not_found")]) w.

Definition mem_indices_delete (index : string) (ignore : list Z) (w : Cluster) :
    Outcome (ApiResponse JsVal) * Cluster :=
  if has_index index w then
    let keep := fun s => negb (in_index index s) in
    (Resolved (mkResponse acknowledged 200),
     mkCluster (listening w)
       (List.filter (fun i => negb (String.eqb index i)) (indices w))
       (List.filter keep (docs w)) (List.filter keep (searchable w)) (next_seq w))
  else if existsb (Z.eqb 404) ignore then
    (Resolved (mkResponse (index_not_found index) 404), w)
  else rejected404 "index_not_found_exception" (index_not_found index) w.

Definition mem_indices_refresh (index : string) (w : Cluster) :
    Outcome (ApiResponse JsVal) * Cluster :=
  if has_index index w then
    (Resolved (mkResponse (VObj [("_shards", VObj [("failed", VNum 0)])]) 200),
     refreshed index w)
  else rejected404 "index_not_found_exception" (index_not_found index) w.

(** A call that needs the store: refused when nothing answers at the node. *)
Definition online {R : Type} (c : ClientHandle) (w : Cluster) (r : Outcome R * Cluster) :
    Outcome R * Cluster :=
  if String.eqb (node c) (listening w) then r else (Rejected ConnectionError, w).

Definition mem_invoke {R : Type} (c : ClientHandle) (m : Method R) (w : Cluster) :
    Outcome R * Cluster :=
  match m in Method R return Outcome R * Cluster with
  | Info =>
      online c w
        (Resolved (mkResponse (VObj [("tagline", VStr "You Know, for Search")]) 200), w)
  | Index index type doc refresh => online c w (mem_index index type doc refresh w)
  | Get index type id => online c w (mem_get index type id w)
  | Update index type id doc refresh => online c w (mem_update index type id doc refresh w)
  | Search index type q sort => online c w (mem_search index type q sort w)
  | Delete index type id refresh => online c w (mem_delete index type id refresh w)
  | IndicesDelete index ignore => online c w (mem_indices_delete index ignore w)
  | IndicesRefresh index => online c w (mem_indices_refresh index w)
  | Close => (Resolved tt, w)
  end.

Definition MemClient : Client Cluster :=
  fun R ev w =>
    match ev in Event R return Outcome R * Cluster with
    | Construct n => (Resolved (mkClient n), w)
    | Invoke c m => mem_invoke c m w
    end.

(** A store answering at [address], with no collection yet. *)
Definition empty_cluster (address : string) : Cluster := mkCluster address [] [] [] 0.

Definition fresh_cluster : Cluster := empty_cluster "http://localhost:9200".

Definition local : Elastic := mkElastic (mkClient "http://localhost:9200").

(** ** Vocabulary of the statements *)

(** Every character of [s] satisfies [p]. *)
Fixpoint all_chars (p : ascii -> bool) (s : string) : bool :=
  match s with
  | EmptyString => true
  | String c s' => p c && all_chars p s'
  end.

(** [typeof v === "string"] *)
Definition is_string (v : JsVal) : bool := String.eqb (typeof v) "string".

(** The message of a thrown [Error] begins with [prefix]. *)
Definition message_starts_with (prefix : string) (e : JsVal) : bool :=
  match e with
  | VError _ message _ => String.prefix prefix message
  | _ => false
  end.

(** A store that returns what was written: once an index request has
    created a document and the collection has been refreshed, a get of the
    assigned id resolves with the written fields. *)
Definition reads_own_writes {W : Type} (c : Client W) : Prop :=
  forall (cl : ClientHandle) (index type : string) (doc : Body) (refresh : string)
         (created : ApiResponse IndexBody) (flushed : ApiResponse JsVal) (w w1 w2 : W),
    c _ (Invoke cl (Index index type doc refresh)) w = (Resolved created, w1) ->
    result (body created) = "created" ->
    statusCode created = 201 ->
    c _ (Invoke cl (IndicesRefresh index)) w1 = (Resolved flushed, w2) ->
    exists (found : ApiResponse Envelope),
      fst (c _ (Invoke cl (Get index type (_id (body created)))) w2) = Resolved found
      /\ _source (body found) = doc.

(** A document with the single field [field], as the tests submit them. *)
Definition keyed (field value : string) : Body := {[ field := FStr value ]}.
Arguments keyed : simpl never.

(** [establish] fails fast on [host] and [port]: whatever the client, the
    error is the argument error, no client is constructed and nothing is
    sent. *)
Definition fails_fast_invalid_argument (host port : JsVal) : Prop :=
  forall (W : Type) (c : Client W) (w : W),
    run c (establish host port) w = mkRun (Rejected (Error "Host invalid")) w [].

(** An instance whose node nothing answers at. *)
Definition unreachable : Elastic := mkElastic (mkClient "http://localhost:9999").

(** The error [new URL(node)] throws inside the library's constructor. *)
Definition InvalidUrl : JsVal :=
  VError "TypeError" "Invalid URL" [("code", VStr "ERR_INVALID_URL")].

(** The reference client with a constructor that throws on a node that is
    no http(s) address, as the library's does. *)
Definition UrlClient : Client Cluster :=
  fun R ev w =>
    match ev in Event R return Outcome R * Cluster with
    | Construct n =>
        if String.prefix "http://" n || String.prefix "https://" n
        then (Resolved (mkClient n), w)
        else (Rejected InvalidUrl, w)
    | Invoke c m => mem_invoke c m w
    end.

Definition TimeoutError : JsVal := VError "TimeoutError" "Request timed out" [].

(** The reference client with a refresh that times out. *)
Definition StalledClient : Client Cluster :=
  fun R ev w =>
    match ev in Event R return Outcome R * Cluster with
    | Construct n => (Resolved (mkClient n), w)
    | Invoke c m =>
        match m in Method R return Outcome R * Cluster with
        | IndicesRefresh _ => (Rejected TimeoutError, w)
        | m' => mem_invoke c m' w
        end
    end.

(** The documents of a list created one after the other, as the tests do. *)
Fixpoint createAll (this : Elastic) (index type : string) (ds : list Body) : Prog unit :=
  match ds with
  | [] => Ret tt
  | d :: rest => createDocument this index type d;; createAll this index type rest
  end.

(** What [satisfies] asks of the fields of a document. *)
Definition matches (q : Query) (d : Body) : bool :=
  match q with
  | MatchAll => true
  | Match field query =>
      match d !! field with
      | Some v => match_terms query v
      | None => false
      end
  | Regexp field pattern =>
      match d !! field with
      | Some v => match_regexp pattern v
      | None => false
      end
  end.

(** The internal identifiers of [l] go down from the head and stay below
    [bound]. *)
Fixpoint newest_first (bound : N) (l : list Stored) : Prop :=
  match l with
  | [] => True
  | s :: rest => (s_seq s < bound)%N /\ newest_first (s_seq s) rest
  end.

(** A store answering at [address] that holds documents of one collection
    and type only, all of them visible to searches, under the ids the
    store gave them. *)
Definition tidy (address index type : string) (w : Cluster) : Prop :=
  listening w = address
  /\ searchable w = docs w
  /\ Forall (fun s => s_index s = index /\ s_type s = type) (docs w)
  /\ newest_first (next_seq w) (docs w)
  /\ (docs w <> [] -> has_index index w = true)
  /\ Forall (fun s => s_id s = new_id (s_seq s)) (docs w).

(** * Properties *)

(** ** Programs and runs *)

Lemma run_bind {W A B : Type} (c : Client W) (p : Prog A) (f : A -> Prog B) (w : W) :
  run c (bind p f) w =
    match outcome (run c p w) with
    | Resolved a =>
        let r := run c (f a) (world (run c p w)) in
        mkRun (outcome r) (world r) (trace (run c p w) ++ trace r)
    | Rejected e => mkRun (Rejected e) (world (run c p w)) (trace (run c p w))
    end.
Proof.
  revert w; induction p as [a | e | R ev k IH]; intros w; simpl.
  - destruct (run c (f a) w); reflexivity.
  - reflexivity.
  - destruct (c R ev w) as [o w']. rewrite IH. unfold logged; simpl.
    destruct (outcome (run c (k o) w')); reflexivity.
Qed.

Lemma run_await {W R : Type} (c : Client W) (ev : Event R) (w : W) :
  run c (await ev) w = mkRun (fst (c R ev w)) (snd (c R ev w)) [sent ev].
Proof.
  unfold await; simpl. destruct (c R ev w) as [[r | e] w']; reflexivity.
Qed.

(** ** The collection name pattern *)

Lemma re_match_none (s : string) : re_match ReNone s = false.
Proof. induction s; simpl; auto. Qed.

Lemma re_match_cat_none (b : Re) (s : string) : re_match (ReCat ReNone b) s = false.
Proof. induction s; simpl; auto. Qed.

Lemma re_match_alt (a b : Re) (s : string) :
  re_match (ReAlt a b) s = re_match a s || re_match b s.
Proof. revert a b; induction s as [| c s IH]; intros a b; simpl; auto. Qed.

Lemma re_match_eps_star (p : ascii -> bool) (s : string) :
  re_match (ReCat ReEps (ReStar (ReClass p))) s = all_chars p s.
Proof.
  induction s as [| c s IH]; simpl; auto.
  rewrite re_match_alt, re_match_cat_none; simpl.
  destruct (p c); simpl; auto using re_match_cat_none.
Qed.

(** A name matches [/^[a-z0-9\-]+$/] exactly when it is not empty and all
    its characters are lower-case letters, digits or hyphens. *)
Lemma index_re_spec (name : string) :
  re_match index_re name =
    match name with
    | EmptyString => false
    | String _ _ => all_chars index_char name
    end.
Proof.
  destruct name as [| c s]; simpl; auto.
  destruct (index_char c); simpl.
  - apply re_match_eps_star.
  - apply re_match_cat_none.
Qed.

Lemma validateIndex_valid (name : string) :
  re_match index_re name = true -> validateIndex name = Ret tt.
Proof. unfold validateIndex; intros ->; reflexivity. Qed.

Lemma validateIndex_invalid (name : string) :
  re_match index_re name = false -> validateIndex name = Throw (Error "Only snake-case allowed").
Proof. unfold validateIndex; intros ->; reflexivity. Qed.

(** ** [establish] *)

Lemma is_string_VStr (v : JsVal) : is_string v = true <-> exists s, v = VStr s.
Proof.
  split.
  - destruct v; try discriminate. eauto.
  - intros [s ->]; reflexivity.
Qed.

Lemma establish_not_string (host port : JsVal) :
  is_string host && is_string port = false ->
  establish host port = Throw (Error "Host invalid").
Proof.
  unfold establish, is_string.
  destruct (String.eqb (typeof host) "string"); simpl; [| reflexivity].
  intros ->; reflexivity.
Qed.

Lemma establish_strings {W : Type} (c : Client W) (h p : string) (w : W) :
  run c (establish (VStr h) (VStr p)) w =
    let created := c _ (Construct (h +:+ ":" +:+ p)) w in
    match fst created with
    | Rejected e => mkRun (Rejected e) (snd created) [sent (Construct (h +:+ ":" +:+ p))]
    | Resolved cl =>
        let probe := c _ (Invoke cl Info) (snd created) in
        mkRun
          match fst probe with
          | Resolved _ => Resolved (mkElastic cl)
          | Rejected e =>
              Rejected (Error ("Cannot establish elasticsearch connection: " +:+ to_string e))
          end
          (snd probe)
          [sent (Construct (h +:+ ":" +:+ p)); sent (Invoke cl Info)]
    end.
Proof.
  unfold establish; simpl.
  destruct (c _ (Construct (h +:+ ":" +:+ p)) w) as [[cl | e] w1]; simpl; [| reflexivity].
  destruct (c _ (Invoke cl Info) w1) as [[r | e] w2]; reflexivity.
Qed.

(** C10: both argument checks of [establish] throw an error with the same
    message, [Host invalid]: a port that is not a string is reported with
    the very message of a host that is not a string, and in both cases
    nothing has been constructed or sent when the error is thrown. *)
Theorem establish_same_message {W : Type} (c : Client W) (host port : JsVal) (w : W) :
  (is_string host = false ->
     run c (establish host port) w = mkRun (Rejected (Error "Host invalid")) w [])
  /\ (is_string port = false ->
     run c (establish host port) w = mkRun (Rejected (Error "Host invalid")) w []).
Proof.
  split; intros H; rewrite establish_not_string; try reflexivity; rewrite H.
  - reflexivity.
  - apply andb_false_r.
Qed.

Lemma establish_same_message_witness :
  run MemClient (establish VUndefined (VStr "9200")) fresh_cluster
    = mkRun (Rejected (Error "Host invalid")) fresh_cluster []
  /\ run MemClient (establish (VStr "http://localhost") (VNum 9200)) fresh_cluster
    = mkRun (Rejected (Error "Host invalid")) fresh_cluster [].
Proof.
  split.
  - apply (proj1 (establish_same_message MemClient VUndefined (VStr "9200") fresh_cluster)).
    reflexivity.
  - apply (proj2 (establish_same_message MemClient (VStr "http://localhost") (VNum 9200)
                    fresh_cluster)).
    reflexivity.
Defined.

(** An empty host is a string: [establish] goes on to call [new Client]
    and does not fail with the argument error. *)
Lemma establish_empty_host_counterexample :
  ~ fails_fast_invalid_argument (VStr "") (VStr "9200").
Proof.
  intros H. specialize (H Cluster MemClient fresh_cluster). discriminate H.
Qed.

(** C7 (amended): [establish] fails fast with the [Host invalid] error,
    before [new Client] is called or anything is sent, exactly when [host]
    or [port] is not a string (a missing argument is [undefined]); two
    strings, empty ones included, pass the check: [new Client] is called on
    [host + ":" + port], and the [info] probe is sent when, and only when,
    that call returns a client (when the constructor throws, nothing
    further is sent). *)
Theorem establish_validation {W : Type} (c : Client W) (w : W) :
  (forall host port : JsVal,
     is_string host && is_string port = false ->
     run c (establish host port) w = mkRun (Rejected (Error "Host invalid")) w [])
  /\ (forall h p : string,
     trace (run c (establish (VStr h) (VStr p)) w) =
       sent (Construct (h +:+ ":" +:+ p)) ::
       match fst (c _ (Construct (h +:+ ":" +:+ p)) w) with
       | Resolved cl => [sent (Invoke cl Info)]
       | Rejected _ => []
       end).
Proof.
  split.
  - intros host port H. rewrite establish_not_string by exact H. reflexivity.
  - intros h p. rewrite establish_strings; simpl.
    destruct (fst (c _ (Construct (h +:+ ":" +:+ p)) w)); reflexivity.
Qed.

Lemma establish_validation_witness :
  run UrlClient (establish (VStr "http://localhost") VUndefined) fresh_cluster
    = mkRun (Rejected (Error "Host invalid")) fresh_cluster []
  /\ trace (run UrlClient (establish (VStr "http://localhost") (VStr "")) fresh_cluster)
    = [sent (Construct "http://localhost:");
       sent (Invoke (mkClient "http://localhost:") Info)]
  /\ trace (run UrlClient (establish (VStr "") (VStr "9200")) fresh_cluster)
    = [sent (Construct ":9200")].
Proof.
  split; [| split].
  - apply (proj1 (establish_validation UrlClient fresh_cluster)). reflexivity.
  - apply (proj2 (establish_validation UrlClient fresh_cluster) "http://localhost" "").
  - apply (proj2 (establish_validation UrlClient fresh_cluster) "" "9200").
Defined.

Lemma prefix_app (s t : string) : String.prefix s (s +:+ t) = true.
Proof.
  induction s as [| a s IH]; simpl.
  - destruct t; reflexivity.
  - destruct (ascii_dec a a); [exact IH | congruence].
Qed.

(** C8: when the probe of [establish] fails, the error thrown to the caller
    is an [Error] whose message is the literal prefix
    [Cannot establish elasticsearch connection: ] followed by the text of
    the cause, so the message begins with that prefix. *)
Theorem establish_probe_failure {W : Type} (c : Client W) (h p : string)
    (cl : ClientHandle) (cause : JsVal) (w w1 w2 : W) :
  c _ (Construct (h +:+ ":" +:+ p)) w = (Resolved cl, w1) ->
  c _ (Invoke cl Info) w1 = (Rejected cause, w2) ->
  let thrown := Error ("Cannot establish elasticsearch connection: " +:+ to_string cause) in
  outcome (run c (establish (VStr h) (VStr p)) w) = Rejected thrown
  /\ message_starts_with "Cannot establish elasticsearch connection: " thrown = true.
Proof.
  intros Hnew Hinfo thrown. split.
  - rewrite establish_strings; simpl. rewrite Hnew; simpl. rewrite Hinfo. reflexivity.
  - apply prefix_app.
Qed.

Lemma establish_probe_failure_witness :
  outcome (run MemClient (establish (VStr "http://localhost") (VStr "9999")) fresh_cluster)
    = Rejected (Error ("Cannot establish elasticsearch connection: "
                       +:+ "ConnectionError: connect ECONNREFUSED"))
  /\ message_starts_with "Cannot establish elasticsearch connection: "
       (Error ("Cannot establish elasticsearch connection: "
               +:+ "ConnectionError: connect ECONNREFUSED")) = true.
Proof.
  apply (establish_probe_failure MemClient "http://localhost" "9999"
           (mkClient "http://localhost:9999") ConnectionError
           fresh_cluster fresh_cluster fresh_cluster); reflexivity.
Defined.

(** ** [createDocument] and [validateIndex] *)

(** C2: for every collection name that does not match [^[a-z0-9-]+$],
    whatever the document body and type tag, [createDocument] throws the
    name error without having sent anything: the trace is empty and the
    world is the one it started in. *)
Theorem createDocument_rejects_invalid_name {W : Type} (c : Client W) (this : Elastic)
    (index type : string) (doc : Body) (w : W) :
  re_match index_re index = false ->
  run c (createDocument this index type doc) w
    = mkRun (Rejected (Error "Only snake-case allowed")) w [].
Proof.
  intros H. unfold createDocument. rewrite (validateIndex_invalid _ H). reflexivity.
Qed.

Lemma createDocument_rejects_invalid_name_witness :
  run MemClient (createDocument local "camelCase" "typeName" (keyed "keyName" "value"))
      fresh_cluster
    = mkRun (Rejected (Error "Only snake-case allowed")) fresh_cluster [].
Proof.
  apply (createDocument_rejects_invalid_name MemClient local "camelCase" "typeName").
  reflexivity.
Defined.

(** The earlier revision sends the index request whatever the name. *)
Lemma earlier_createDocument_not_validated {W : Type} (c : Client W) (this : Elastic)
    (index type : string) (doc : Body) (w : W) :
  exists rest,
    trace (run c (Earlier.createDocument this index type doc) w)
      = sent (Invoke (client this) (Index index type doc "true")) :: rest.
Proof.
  unfold Earlier.createDocument; simpl.
  destruct (c _ (Invoke (client this) (Index index type doc "true")) w) as [o w'].
  simpl. eauto.
Qed.

(** ** [updateDocument] *)

(** C5: [updateDocument] never throws: it sends one update and resolves
    with [true] when the client's update call resolves and with [false]
    when that call is rejected, whatever the cause of the rejection. *)
Theorem updateDocument_total {W : Type} (c : Client W) (this : Elastic)
    (index type : string) (id : DocumentId) (doc : Body) (w : W) :
  let call := Invoke (client this) (Update index type id doc "true") in
  outcome (run c (updateDocument this index type id doc) w)
    = Resolved (is_resolved (fst (c _ call w)))
  /\ trace (run c (updateDocument this index type id doc) w) = [sent call].
Proof.
  unfold updateDocument; simpl.
  destruct (c _ (Invoke (client this) (Update index type id doc "true")) w) as [[r | e] w'];
    simpl; split; reflexivity.
Qed.

(** ** [getById] *)

Lemma getById_found {W : Type} (c : Client W) (this : Elastic) (index type : string)
    (id : DocumentId) (r : ApiResponse Envelope) (w w' : W) :
  c _ (Invoke (client this) (Get index type id)) w = (Resolved r, w') ->
  outcome (run c (getById this index type id) w) = Resolved (Some (_source (body r))).
Proof. intros H. unfold getById; simpl. rewrite H. reflexivity. Qed.

(** What the [catch] block of [getById] makes of a rejection [e]. *)
Lemma getById_rejected {W : Type} (c : Client W) (this : Elastic) (index type : string)
    (id : DocumentId) (e : JsVal) (w w' : W) :
  c _ (Invoke (client this) (Get index type id)) w = (Rejected e, w') ->
  outcome (run c (getById this index type id) w) =
    match read_prop e "body" with
    | inr thrown => Rejected thrown
    | inl b =>
        match read_prop b "found" with
        | inr thrown => Rejected thrown
        | inl found => if is_false found then Resolved None else Rejected e
        end
    end.
Proof.
  intros H. unfold getById, prop; simpl. rewrite H; simpl.
  destruct (read_prop e "body") as [b | t]; simpl; [| reflexivity].
  destruct (read_prop b "found") as [f | t]; simpl; [| reflexivity].
  destruct (is_false f); reflexivity.
Qed.

(** The not-found flag gives the absent result. *)
Lemma getById_not_found {W : Type} (c : Client W) (this : Elastic) (index type : string)
    (id : DocumentId) (e b : JsVal) (w w' : W) :
  c _ (Invoke (client this) (Get index type id)) w = (Rejected e, w') ->
  read_prop e "body" = inl b ->
  read_prop b "found" = inl (VBool false) ->
  outcome (run c (getById this index type id) w) = Resolved None.
Proof.
  intros H Hb Hf. rewrite (getById_rejected _ _ _ _ _ _ _ _ H), Hb, Hf. reflexivity.
Qed.

(** A failure that carries a body without the flag is thrown again as it is. *)
Lemma getById_rethrows {W : Type} (c : Client W) (this : Elastic) (index type : string)
    (id : DocumentId) (e b found : JsVal) (w w' : W) :
  c _ (Invoke (client this) (Get index type id)) w = (Rejected e, w') ->
  read_prop e "body" = inl b ->
  read_prop b "found" = inl found ->
  is_false found = false ->
  outcome (run c (getById this index type id) w) = Rejected e.
Proof.
  intros H Hb Hf Hn. rewrite (getById_rejected _ _ _ _ _ _ _ _ H), Hb, Hf, Hn. reflexivity.
Qed.

(** A failure without a body: reading [found] throws, and the [TypeError]
    takes the place of the failure. *)
Lemma getById_no_body {W : Type} (c : Client W) (this : Elastic) (index type : string)
    (id : DocumentId) (e : JsVal) (w w' : W) :
  c _ (Invoke (client this) (Get index type id)) w = (Rejected e, w') ->
  read_prop e "body" = inl VUndefined ->
  outcome (run c (getById this index type id) w) = Rejected (TypeError_read VUndefined "found").
Proof.
  intros H Hb. rewrite (getById_rejected _ _ _ _ _ _ _ _ H), Hb. reflexivity.
Qed.

(** C3 (the code departs from it): a get refused by the transport is
    rejected with a connection error, which has no [body]; [getById] then
    throws a [TypeError] from [e.body.found] instead of the error it
    caught. *)
Theorem getById_connection_error_replaced :
  fst (MemClient _ (Invoke (client unreachable) (Get "unit-test" "typeName" "doc-0"))
         fresh_cluster) = Rejected ConnectionError
  /\ outcome (run MemClient (getById unreachable "unit-test" "typeName" "doc-0") fresh_cluster)
     = Rejected (VError "TypeError" "Cannot read properties of undefined (reading 'found')" [])
  /\ VError "TypeError" "Cannot read properties of undefined (reading 'found')" []
     <> ConnectionError.
Proof. split; [reflexivity | split; [reflexivity | discriminate]]. Qed.

(** ** The round trip *)

(** C1: on a store that returns what was written, when [createDocument]
    resolves with an id, [getById] with that id (same collection and type)
    resolves with exactly the field mapping that was submitted. *)
Theorem createDocument_getById_roundtrip {W : Type} (c : Client W) (this : Elastic)
    (index type : string) (M : Body) (id : DocumentId) (w : W) :
  reads_own_writes c ->
  outcome (run c (createDocument this index type M) w) = Resolved id ->
  outcome (run c (getById this index type id) (world (run c (createDocument this index type M) w)))
    = Resolved (Some M).
Proof.
  intros Hc. unfold createDocument, refresh.
  destruct (re_match index_re index) eqn:Hv.
  2: { rewrite (validateIndex_invalid _ Hv). simpl. discriminate. }
  rewrite (validateIndex_valid _ Hv). simpl.
  destruct (c _ (Invoke (client this) (Index index type M "true")) w)
    as [[created | e] w1] eqn:Hi; simpl; [| discriminate].
  destruct (c _ (Invoke (client this) (IndicesRefresh index)) w1)
    as [[flushed | e] w2] eqn:Hr; simpl; [| discriminate].
  destruct (String.eqb (result (body created)) "created") eqn:Hres; simpl; [| discriminate].
  destruct (statusCode created =? 201) eqn:Hst; simpl; [| discriminate].
  intros [= <-].
  apply String.eqb_eq in Hres. apply Z.eqb_eq in Hst.
  destruct (Hc _ _ _ _ _ _ _ _ _ _ Hi Hres Hst Hr) as (found & Hget & Hsrc).
  unfold getById; simpl.
  destruct (c _ (Invoke (client this) (Get index type (_id (body created)))) w2)
    as [o w3] eqn:Hg.
  simpl in Hget; subst o. simpl. rewrite Hsrc. reflexivity.
Qed.

Lemma refresh_if_listening (b : bool) (index : string) (w : Cluster) :
  listening (refresh_if b index w) = listening w.
Proof. destruct b; reflexivity. Qed.

Lemma refresh_if_indices (b : bool) (index : string) (w : Cluster) :
  indices (refresh_if b index w) = indices w.
Proof. destruct b; reflexivity. Qed.

Lemma refresh_if_docs (b : bool) (index : string) (w : Cluster) :
  docs (refresh_if b index w) = docs w.
Proof. destruct b; reflexivity. Qed.

Lemma has_index_refresh_if (b : bool) (i index : string) (w : Cluster) :
  has_index i (refresh_if b index w) = has_index i w.
Proof. unfold has_index. rewrite refresh_if_indices. reflexivity. Qed.

Lemma has_index_after_index (index type : string) (doc : Body) (refresh : string)
    (w : Cluster) :
  has_index index (snd (mem_index index type doc refresh w)) = true.
Proof.
  unfold mem_index; simpl. rewrite has_index_refresh_if.
  unfold has_index at 1; simpl.
  destruct (has_index index w) eqn:H; [exact H |].
  simpl. rewrite String.eqb_refl. reflexivity.
Qed.

(** The reference client returns what was written. *)
Lemma MemClient_reads_own_writes : reads_own_writes MemClient.
Proof.
  intros cl index type doc rf created flushed w w1 w2 Hi _ _ Hr. simpl in *.
  unfold online in Hi.
  destruct (String.eqb (node cl) (listening w)) eqn:Hon; [| discriminate].
  assert (Hw1 : w1 = snd (mem_index index type doc rf w)) by (rewrite Hi; reflexivity).
  assert (Hid : _id (body created) = new_id (next_seq w)).
  { unfold mem_index in Hi. injection Hi as <- _. reflexivity. }
  clear Hi.
  assert (Hex : has_index index w1 = true).
  { rewrite Hw1. apply has_index_after_index. }
  assert (Hl : listening w1 = listening w).
  { rewrite Hw1. unfold mem_index; simpl. rewrite refresh_if_listening. reflexivity. }
  assert (Hd : docs w1 = mkStored index type (next_seq w) (new_id (next_seq w)) doc :: docs w).
  { rewrite Hw1. unfold mem_index; simpl. rewrite refresh_if_docs. reflexivity. }
  clear Hw1.
  unfold online in Hr. rewrite Hl, Hon in Hr.
  unfold mem_indices_refresh in Hr. rewrite Hex in Hr. injection Hr as _ <-.
  unfold online; simpl. rewrite Hl, Hon.
  unfold mem_get. change (has_index index (refreshed index w1)) with (has_index index w1).
  rewrite Hex; simpl. rewrite Hd, Hid; simpl.
  unfold is_doc; simpl. rewrite !String.eqb_refl; simpl.
  eexists; split; reflexivity.
Qed.

Lemma createDocument_getById_roundtrip_witness :
  outcome (run MemClient (getById local "unit-test-elastic-index" "typeName" "doc-0")
             (world (run MemClient
                       (createDocument local "unit-test-elastic-index" "typeName"
                          (keyed "keyName" "value"))
                       fresh_cluster)))
    = Resolved (Some (keyed "keyName" "value")).
Proof.
  apply (createDocument_getById_roundtrip MemClient local "unit-test-elastic-index" "typeName"
           (keyed "keyName" "value") "doc-0" fresh_cluster MemClient_reads_own_writes).
  vm_compute. reflexivity.
Defined.

(** ** [deleteDocument] *)

(** [deleteDocument] sends one delete with [refresh: "true"] and settles as
    that call does. *)
Lemma deleteDocument_run {W : Type} (c : Client W) (this : Elastic) (index type : string)
    (id : DocumentId) (w : W) :
  let call := Invoke (client this) (Delete index type id (Some "true")) in
  outcome (run c (deleteDocument this index type id) w) =
    match fst (c _ call w) with
    | Resolved _ => Resolved tt
    | Rejected e => Rejected e
    end
  /\ trace (run c (deleteDocument this index type id) w) = [sent call].
Proof.
  unfold deleteDocument; simpl.
  destruct (c _ (Invoke (client this) (Delete index type id (Some "true"))) w)
    as [[r | e] w']; simpl; split; reflexivity.
Qed.

(** The earlier revision asks for no refresh. *)
Lemma earlier_deleteDocument_no_refresh {W : Type} (c : Client W) (this : Elastic)
    (index type : string) (id : DocumentId) (w : W) :
  trace (run c (Earlier.deleteDocument this index type id) w)
    = [sent (Invoke (client this) (Delete index type id None))].
Proof.
  unfold Earlier.deleteDocument; simpl.
  destruct (c _ (Invoke (client this) (Delete index type id None)) w) as [[r | e] w'];
    reflexivity.
Qed.

(** C6 (the code departs from it): deleting a document that exists
    completes silently, but deleting the same id again does not: the store
    answers not-found, the delete call lists no status to ignore, and the
    rejection reaches the caller. *)
Theorem deleteDocument_absent_id_raises :
  let index := "unit-test-elastic-index" in
  let type := "typeName" in
  let once :=
    (id <- createDocument local index type (keyed "keyName" "value");;
     deleteDocument local index type id)%prog in
  let twice :=
    (id <- createDocument local index type (keyed "keyName" "value");;
     deleteDocument local index type id;;
     deleteDocument local index type id)%prog in
  outcome (run MemClient once fresh_cluster) = Resolved tt
  /\ outcome (run MemClient twice fresh_cluster)
     = Rejected
         (ResponseError 404 "Response Error"
            (VObj [("_index", VStr index); ("_type", VStr type); ("_id", VStr "doc-0");
                   ("found", VBool false); ("result", VStr "not_found")])).
Proof. split; vm_compute; reflexivity. Qed.

(** ** [deleteIndex] *)

Lemma deleteIndex_run {W : Type} (c : Client W) (this : Elastic) (index : string) (w : W) :
  let call := Invoke (client this) (IndicesDelete index [404]) in
  run c (deleteIndex this index) w =
    mkRun
      match fst (c _ call w) with
      | Resolved _ => Resolved true
      | Rejected e => Rejected e
      end
      (snd (c _ call w)) [sent call].
Proof.
  unfold deleteIndex; simpl.
  destruct (c _ (Invoke (client this) (IndicesDelete index [404])) w) as [[r | e] w'];
    reflexivity.
Qed.

(** On the reference client a delete that ignores 404 is rejected only
    when nothing answers at the node. *)
Lemma mem_indices_delete_ignored (index : string) (w : Cluster) :
  exists r w', mem_indices_delete index [404] w = (Resolved r, w')
               /\ (has_index index w = false -> w' = w).
Proof.
  unfold mem_indices_delete. destruct (has_index index w); simpl.
  - eexists _, _; split; [reflexivity | discriminate].
  - eexists _, _; split; reflexivity.
Qed.

(** C9: [deleteIndex] sends one delete of the collection that lists 404
    among the statuses to ignore, and returns [true] whenever that call
    resolves; on the reference store, a collection that does not exist is
    such a case: the call resolves, the store is left as it was and
    [deleteIndex] returns [true] without throwing. *)
Theorem deleteIndex_idempotent :
  (forall (W : Type) (c : Client W) (this : Elastic) (index : string) (w : W),
     let call := Invoke (client this) (IndicesDelete index [404]) in
     trace (run c (deleteIndex this index) w) = [sent call]
     /\ (is_resolved (fst (c _ call w)) = true ->
         outcome (run c (deleteIndex this index) w) = Resolved true))
  /\ (forall (this : Elastic) (index : string) (w : Cluster),
     node (client this) = listening w ->
     has_index index w = false ->
     outcome (run MemClient (deleteIndex this index) w) = Resolved true
     /\ world (run MemClient (deleteIndex this index) w) = w).
Proof.
  split.
  - intros W c this index w call. rewrite deleteIndex_run; simpl. fold call.
    split; [reflexivity |].
    destruct (fst (c _ call w)); [reflexivity | discriminate].
  - intros this index w Hn Hi. rewrite deleteIndex_run; simpl.
    unfold online. rewrite Hn, String.eqb_refl.
    destruct (mem_indices_delete_ignored index w) as (r & w' & -> & Hw).
    simpl. split; [reflexivity | auto].
Qed.

Lemma deleteIndex_idempotent_witness :
  outcome (run MemClient (deleteIndex local "unit-test-elastic-index") fresh_cluster)
    = Resolved true
  /\ world (run MemClient (deleteIndex local "unit-test-elastic-index") fresh_cluster)
    = fresh_cluster.
Proof.
  apply (proj2 deleteIndex_idempotent local "unit-test-elastic-index" fresh_cluster);
    reflexivity.
Defined.

(** ** [searchByField] *)

(** [searchByField] sends one analyzed [match] query sorted by ascending
    [_uid] and returns the sources of the hits in the order of the answer. *)
Lemma searchByField_run {W : Type} (c : Client W) (this : Elastic)
    (index type field query : string) (w : W) :
  let call := Invoke (client this) (Search index type (Match field query) [UidAsc]) in
  outcome (run c (searchByField this index type field query) w) =
    match fst (c _ call w) with
    | Resolved response => Resolved (map _source (hits (body response)))
    | Rejected e => Rejected e
    end
  /\ trace (run c (searchByField this index type field query) w) = [sent call].
Proof.
  unfold searchByField; simpl.
  destruct (c _ (Invoke (client this) (Search index type (Match field query) [UidAsc])) w)
    as [[r | e] w']; simpl; split; reflexivity.
Qed.

Lemma keyed_lookup (field value : string) : keyed field value !! field = Some (FStr value).
Proof. apply lookup_singleton_eq. Qed.

Lemma run_bind_resolved {W A B : Type} (c : Client W) (p : Prog A) (f : A -> Prog B)
    (w w' : W) (a : A) (tr : list Sent) :
  run c p w = mkRun (Resolved a) w' tr ->
  outcome (run c (bind p f) w) = outcome (run c (f a) w').
Proof. intros H. rewrite run_bind, H. reflexivity. Qed.

(** [createDocument] on the reference client, under a valid name. *)
Lemma createDocument_on_reference (this : Elastic) (index type : string) (doc : Body)
    (w : Cluster) :
  node (client this) = listening w ->
  re_match index_re index = true ->
  run MemClient (createDocument this index type doc) w =
    mkRun (Resolved (new_id (next_seq w)))
      (refreshed index (snd (mem_index index type doc "true" w)))
      [sent (Invoke (client this) (Index index type doc "true"));
       sent (Invoke (client this) (IndicesRefresh index))].
Proof.
  intros Hn Hv. unfold createDocument, refresh. rewrite (validateIndex_valid _ Hv).
  pose proof (has_index_after_index index type doc "true" w) as Hex.
  simpl in *. unfold online. rewrite Hn, String.eqb_refl. simpl.
  unfold mem_indices_refresh. rewrite Hex. unfold online; simpl.
  rewrite Hn, String.eqb_refl. reflexivity.
Qed.

Ltac create_on_reference :=
  erewrite run_bind_resolved by (apply createDocument_on_reference; auto).

Ltac search_on_reference :=
  repeat (progress (unfold online, mem_search, mem_indices_refresh, has_index, refreshed,
                      in_index;
                    simpl; rewrite ?String.eqb_refl, ?keyed_lookup)).

(** C4: in a collection that holds exactly the documents with field values
    [aa], [aa bb] and [cc], created in that order, [searchByField] on the
    field with the query [aa] returns the first two, in the order of their
    creation; and the query [aa] does not match a document whose value is
    [aaa]. *)
Theorem searchByField_pinned_policy (this : Elastic) (index type field : string) :
  re_match index_re index = true ->
  outcome (run MemClient
             (createDocument this index type (keyed field "aa");;
              createDocument this index type (keyed field "aa bb");;
              createDocument this index type (keyed field "cc");;
              searchByField this index type field "aa")
             (empty_cluster (node (client this))))
    = Resolved [keyed field "aa"; keyed field "aa bb"]
  /\ outcome (run MemClient
                (createDocument this index type (keyed field "aaa");;
                 searchByField this index type field "aa")
                (empty_cluster (node (client this))))
    = Resolved [].
Proof.
  intros Hv. split.
  - do 3 create_on_reference. unfold searchByField. search_on_reference. reflexivity.
  - create_on_reference. unfold searchByField. search_on_reference. reflexivity.
Qed.

Lemma searchByField_pinned_policy_witness :
  outcome (run MemClient
             (createDocument local "unit-test-elastic-index" "typeName" (keyed "keyName" "aa");;
              createDocument local "unit-test-elastic-index" "typeName" (keyed "keyName" "aa bb");;
              createDocument local "unit-test-elastic-index" "typeName" (keyed "keyName" "cc");;
              searchByField local "unit-test-elastic-index" "typeName" "keyName" "aa")
             fresh_cluster)
    = Resolved [keyed "keyName" "aa"; keyed "keyName" "aa bb"]
  /\ outcome (run MemClient
                (createDocument local "unit-test-elastic-index" "typeName"
                   (keyed "keyName" "aaa");;
                 searchByField local "unit-test-elastic-index" "typeName" "keyName" "aa")
                fresh_cluster)
    = Resolved [].
Proof.
  apply (searchByField_pinned_policy local "unit-test-elastic-index" "typeName" "keyName").
  reflexivity.
Defined.

(** The earlier revision's pattern does match inside a token. *)
Lemma earlier_searchByField_matches_inside (this : Elastic) (index type field : string) :
  outcome (run MemClient
             (Earlier.createDocument this index type (keyed field "aaa");;
              Earlier.searchByField this index type field "aa")
             (empty_cluster (node (client this))))
    = Resolved [keyed field "aaa"].
Proof.
  unfold Earlier.createDocument, Earlier.searchByField, refresh.
  search_on_reference. reflexivity.
Qed.

(** * Further properties of the adapter *)

(** ** [validateIndex] *)

(** X1: [validateIndex] returns normally exactly for the names that are not
    empty and consist of lower-case letters, digits and hyphens only; for
    every other name it throws [Only snake-case allowed]. *)
Theorem validateIndex_accepts_exactly (name : string) :
  validateIndex name =
    if negb (String.eqb name "") && all_chars index_char name
    then Ret tt
    else Throw (Error "Only snake-case allowed").
Proof.
  unfold validateIndex. rewrite index_re_spec.
  destruct name as [| c s]; [reflexivity |].
  change (String.eqb (String c s) "") with false. simpl.
  destruct (index_char c && all_chars index_char s); reflexivity.
Qed.

Lemma all_chars_app_false (p : ascii -> bool) (s1 s2 : string) (c : ascii) :
  p c = false -> all_chars p (s1 +:+ String c s2) = false.
Proof.
  intros H. induction s1 as [| a s1 IH]; simpl.
  - rewrite H. reflexivity.
  - rewrite IH. apply andb_false_r.
Qed.

Lemma index_char_rejects (c : ascii) :
  c = "_"%char \/ in_range "A" "Z" c = true -> index_char c = false.
Proof.
  intros [-> | H]; [reflexivity |].
  destruct c as [[] [] [] [] [] [] [] []]; vm_compute in H |- *;
    first [reflexivity | discriminate H].
Qed.

(** X2: a name with an underscore or an upper-case letter anywhere in it is
    rejected by [validateIndex], whatever surrounds the character: a
    snake_case name is refused although the message reads
    [Only snake-case allowed]. *)
Theorem validateIndex_rejects_underscore_and_upper (before after : string) (c : ascii) :
  c = "_"%char \/ in_range "A" "Z" c = true ->
  validateIndex (before +:+ String c after) = Throw (Error "Only snake-case allowed").
Proof.
  intros H. apply validateIndex_invalid. rewrite index_re_spec.
  pose proof (all_chars_app_false index_char before after c (index_char_rejects c H)) as Hc.
  destruct (before +:+ String c after); [reflexivity | exact Hc].
Qed.

Lemma validateIndex_rejects_underscore_and_upper_witness :
  validateIndex "unit_test" = Throw (Error "Only snake-case allowed")
  /\ validateIndex "unitTest" = Throw (Error "Only snake-case allowed").
Proof.
  split.
  - apply (validateIndex_rejects_underscore_and_upper "unit" "test" "_"). left; reflexivity.
  - apply (validateIndex_rejects_underscore_and_upper "unit" "est" "T"). right; reflexivity.
Defined.

(** ** [createDocument] *)

(** X3: under a valid name, when the index call and the refresh both
    resolve, [createDocument] resolves with the [_id] of the response if
    the response says [created] with status 201, and throws
    [Failed to create document] otherwise; either way the refresh has been
    sent before the response is looked at. *)
Theorem createDocument_checks_response {W : Type} (c : Client W) (this : Elastic)
    (index type : string) (doc : Body) (created : ApiResponse IndexBody)
    (flushed : ApiResponse JsVal) (w w1 w2 : W) :
  re_match index_re index = true ->
  c _ (Invoke (client this) (Index index type doc "true")) w = (Resolved created, w1) ->
  c _ (Invoke (client this) (IndicesRefresh index)) w1 = (Resolved flushed, w2) ->
  run c (createDocument this index type doc) w =
    mkRun
      (if String.eqb (result (body created)) "created" && (statusCode created =? 201)
       then Resolved (_id (body created))
       else Rejected (Error "Failed to create document"))
      w2
      [sent (Invoke (client this) (Index index type doc "true"));
       sent (Invoke (client this) (IndicesRefresh index))].
Proof.
  intros Hv Hi Hr. unfold createDocument, refresh. rewrite (validateIndex_valid _ Hv).
  simpl. rewrite Hi; simpl. rewrite Hr; simpl.
  destruct (String.eqb (result (body created)) "created"); simpl; [| reflexivity].
  destruct (statusCode created =? 201); reflexivity.
Qed.

Lemma createDocument_checks_response_witness :
  run MemClient (createDocument local "unit-test" "typeName" (keyed "keyName" "value"))
      fresh_cluster
    = mkRun (Resolved "doc-0")
        (refreshed "unit-test"
           (snd (mem_index "unit-test" "typeName" (keyed "keyName" "value") "true"
                   fresh_cluster)))
        [sent (Invoke (client local)
                 (Index "unit-test" "typeName" (keyed "keyName" "value") "true"));
         sent (Invoke (client local) (IndicesRefresh "unit-test"))].
Proof.
  apply (createDocument_checks_response MemClient local "unit-test" "typeName"
           (keyed "keyName" "value") (mkResponse (mkIndexBody "created" "doc-0") 201)
           (mkResponse (VObj [("_shards", VObj [("failed", VNum 0)])]) 200)
           fresh_cluster
           (snd (mem_index "unit-test" "typeName" (keyed "keyName" "value") "true"
                   fresh_cluster)));
    reflexivity.
Defined.

(** X4: under a valid name, when the index call resolves but the refresh is
    rejected, [createDocument] is rejected with the refresh's error,
    whatever the index response said: the id of a document the store did
    create is not returned. *)
Theorem createDocument_refresh_failure {W : Type} (c : Client W) (this : Elastic)
    (index type : string) (doc : Body) (created : ApiResponse IndexBody) (e : JsVal)
    (w w1 w2 : W) :
  re_match index_re index = true ->
  c _ (Invoke (client this) (Index index type doc "true")) w = (Resolved created, w1) ->
  c _ (Invoke (client this) (IndicesRefresh index)) w1 = (Rejected e, w2) ->
  run c (createDocument this index type doc) w =
    mkRun (Rejected e) w2
      [sent (Invoke (client this) (Index index type doc "true"));
       sent (Invoke (client this) (IndicesRefresh index))].
Proof.
  intros Hv Hi Hr. unfold createDocument, refresh. rewrite (validateIndex_valid _ Hv).
  simpl. rewrite Hi; simpl. rewrite Hr; reflexivity.
Qed.

Lemma createDocument_refresh_failure_witness :
  outcome (run StalledClient
             (createDocument local "unit-test" "typeName" (keyed "keyName" "value"))
             fresh_cluster)
    = Rejected TimeoutError
  /\ map s_source
       (docs (world (run StalledClient
                       (createDocument local "unit-test" "typeName" (keyed "keyName" "value"))
                       fresh_cluster)))
    = [keyed "keyName" "value"].
Proof.
  rewrite (createDocument_refresh_failure StalledClient local "unit-test" "typeName"
             (keyed "keyName" "value") (mkResponse (mkIndexBody "created" "doc-0") 201)
             TimeoutError fresh_cluster
             (snd (mem_index "unit-test" "typeName" (keyed "keyName" "value") "true"
                     fresh_cluster))
             (snd (mem_index "unit-test" "typeName" (keyed "keyName" "value") "true"
                     fresh_cluster)));
    [split |..]; reflexivity.
Defined.

(** X5: under a valid name, when the index call is rejected,
    [createDocument] is rejected with that same error and sends no
    refresh. *)
Theorem createDocument_index_failure {W : Type} (c : Client W) (this : Elastic)
    (index type : string) (doc : Body) (e : JsVal) (w w1 : W) :
  re_match index_re index = true ->
  c _ (Invoke (client this) (Index index type doc "true")) w = (Rejected e, w1) ->
  run c (createDocument this index type doc) w =
    mkRun (Rejected e) w1 [sent (Invoke (client this) (Index index type doc "true"))].
Proof.
  intros Hv Hi. unfold createDocument, refresh. rewrite (validateIndex_valid _ Hv).
  simpl. rewrite Hi; reflexivity.
Qed.

Lemma createDocument_index_failure_witness :
  run MemClient (createDocument unreachable "unit-test" "typeName" (keyed "keyName" "value"))
      fresh_cluster
    = mkRun (Rejected ConnectionError) fresh_cluster
        [sent (Invoke (client unreachable)
                 (Index "unit-test" "typeName" (keyed "keyName" "value") "true"))].
Proof.
  apply (createDocument_index_failure MemClient unreachable "unit-test" "typeName"
           (keyed "keyName" "value") ConnectionError fresh_cluster fresh_cluster);
    reflexivity.
Defined.

(** X11: under a valid name the two revisions of [createDocument] are the
    same program: the validation is their only difference. *)
Theorem createDocument_agrees_with_earlier (this : Elastic) (index type : string)
    (doc : Body) :
  re_match index_re index = true ->
  createDocument this index type doc = Earlier.createDocument this index type doc.
Proof.
  intros Hv. unfold createDocument. rewrite (validateIndex_valid _ Hv). reflexivity.
Qed.

Lemma createDocument_agrees_with_earlier_witness :
  createDocument local "unit-test" "typeName" (keyed "keyName" "value")
    = Earlier.createDocument local "unit-test" "typeName" (keyed "keyName" "value").
Proof.
  apply (createDocument_agrees_with_earlier local "unit-test" "typeName"). reflexivity.
Defined.

(** ** [establish] *)

(** X6: when constructing the client throws, [establish] throws that very
    error: it is not given the connection prefix, and no probe is sent. *)
Theorem establish_constructor_failure {W : Type} (c : Client W) (h p : string)
    (e : JsVal) (w w1 : W) :
  c _ (Construct (h +:+ ":" +:+ p)) w = (Rejected e, w1) ->
  run c (establish (VStr h) (VStr p)) w =
    mkRun (Rejected e) w1 [sent (Construct (h +:+ ":" +:+ p))].
Proof.
  intros H. rewrite establish_strings; simpl. rewrite H. reflexivity.
Qed.

Lemma establish_constructor_failure_witness :
  run UrlClient (establish (VStr "") (VStr "9200")) fresh_cluster
    = mkRun (Rejected InvalidUrl) fresh_cluster [sent (Construct ":9200")].
Proof.
  apply (establish_constructor_failure UrlClient "" "9200" InvalidUrl
           fresh_cluster fresh_cluster).
  reflexivity.
Defined.

(** X7: when the client is constructed and the probe resolves, [establish]
    resolves with an adapter that holds the constructed client, having
    sent the construction and one [info] and nothing else. *)
Theorem establish_success {W : Type} (c : Client W) (h p : string)
    (cl : ClientHandle) (answer : ApiResponse JsVal) (w w1 w2 : W) :
  c _ (Construct (h +:+ ":" +:+ p)) w = (Resolved cl, w1) ->
  c _ (Invoke cl Info) w1 = (Resolved answer, w2) ->
  run c (establish (VStr h) (VStr p)) w =
    mkRun (Resolved (mkElastic cl)) w2
      [sent (Construct (h +:+ ":" +:+ p)); sent (Invoke cl Info)].
Proof.
  intros Hnew Hinfo. rewrite establish_strings; simpl. rewrite Hnew; simpl.
  rewrite Hinfo. reflexivity.
Qed.

Lemma establish_success_witness :
  run MemClient (establish (VStr "http://localhost") (VStr "9200")) fresh_cluster
    = mkRun (Resolved local) fresh_cluster
        [sent (Construct "http://localhost:9200"); sent (Invoke (client local) Info)].
Proof.
  apply (establish_success MemClient "http://localhost" "9200"
           (mkClient "http://localhost:9200")
           (mkResponse (VObj [("tagline", VStr "You Know, for Search")]) 200)
           fresh_cluster fresh_cluster fresh_cluster); reflexivity.
Defined.

(** ** [getById] *)

(** X8: when the get is rejected with an error whose [body] carries
    [found: false], [getById] resolves with [undefined]: the error is
    swallowed, and nothing but the one get has been sent. *)
Theorem getById_absent_on_found_false {W : Type} (c : Client W) (this : Elastic)
    (index type : string) (id : DocumentId) (e b : JsVal) (w w' : W) :
  c _ (Invoke (client this) (Get index type id)) w = (Rejected e, w') ->
  read_prop e "body" = inl b ->
  read_prop b "found" = inl (VBool false) ->
  run c (getById this index type id) w =
    mkRun (Resolved None) w' [sent (Invoke (client this) (Get index type id))].
Proof.
  intros H Hb Hf. unfold getById, prop; simpl. rewrite H; simpl.
  rewrite Hb; simpl. rewrite Hf; reflexivity.
Qed.

Lemma getById_absent_on_found_false_witness :
  run MemClient (getById local "unit-test" "typeName" "doc-7")
      (mkCluster "http://localhost:9200" ["unit-test"] [] [] 0)
    = mkRun (Resolved None) (mkCluster "http://localhost:9200" ["unit-test"] [] [] 0)
        [sent (Invoke (client local) (Get "unit-test" "typeName" "doc-7"))].
Proof.
  apply (getById_absent_on_found_false MemClient local "unit-test" "typeName" "doc-7"
           (ResponseError 404 "Response Error" (not_found "unit-test" "typeName" "doc-7"))
           (not_found "unit-test" "typeName" "doc-7"));
    reflexivity.
Defined.

(** X9: when the get is rejected with an error whose [body] is an object
    or a primitive and whose [found] is anything but the boolean [false]
    (absent, [true], a string, ...), [getById] throws the error it caught,
    unchanged. *)
Theorem getById_rethrows_other_failures {W : Type} (c : Client W) (this : Elastic)
    (index type : string) (id : DocumentId) (e b found : JsVal) (w w' : W) :
  c _ (Invoke (client this) (Get index type id)) w = (Rejected e, w') ->
  read_prop e "body" = inl b ->
  read_prop b "found" = inl found ->
  is_false found = false ->
  run c (getById this index type id) w =
    mkRun (Rejected e) w' [sent (Invoke (client this) (Get index type id))].
Proof.
  intros H Hb Hf Hn. unfold getById, prop; simpl. rewrite H; simpl.
  rewrite Hb; simpl. rewrite Hf; simpl. rewrite Hn; reflexivity.
Qed.

Lemma getById_rethrows_other_failures_witness :
  run MemClient (getById local "unit-test" "typeName" "doc-7") fresh_cluster
    = mkRun
        (Rejected (ResponseError 404 "index_not_found_exception" (index_not_found "unit-test")))
        fresh_cluster
        [sent (Invoke (client local) (Get "unit-test" "typeName" "doc-7"))].
Proof.
  apply (getById_rethrows_other_failures MemClient local "unit-test" "typeName" "doc-7"
           (ResponseError 404 "index_not_found_exception" (index_not_found "unit-test"))
           (index_not_found "unit-test") VUndefined);
    reflexivity.
Defined.

(** ** Names are validated by [createDocument] only *)

Lemma updateDocument_trace_only {W : Type} (c : Client W) (this : Elastic)
    (index type : string) (id : DocumentId) (doc : Body) (w : W) :
  trace (run c (updateDocument this index type id doc) w)
    = [sent (Invoke (client this) (Update index type id doc "true"))].
Proof.
  unfold updateDocument; simpl.
  destruct (c _ (Invoke (client this) (Update index type id doc "true")) w)
    as [[r | e] w']; reflexivity.
Qed.

(** X10: no method but [createDocument] looks at the collection name:
    [getById], [updateDocument], [getAll], [searchByField],
    [deleteDocument], [deleteIndex] and [refresh] each send their one
    request for every name, valid or not. *)
Theorem only_createDocument_validates {W : Type} (c : Client W) (this : Elastic)
    (index type field query : string) (id : DocumentId) (doc : Body) (w : W) :
  let cl := client this in
  trace (run c (getById this index type id) w) = [sent (Invoke cl (Get index type id))]
  /\ trace (run c (updateDocument this index type id doc) w)
     = [sent (Invoke cl (Update index type id doc "true"))]
  /\ trace (run c (getAll this index type) w)
     = [sent (Invoke cl (Search index type MatchAll [UidAsc]))]
  /\ trace (run c (searchByField this index type field query) w)
     = [sent (Invoke cl (Search index type (Match field query) [UidAsc]))]
  /\ trace (run c (deleteDocument this index type id) w)
     = [sent (Invoke cl (Delete index type id (Some "true")))]
  /\ trace (run c (deleteIndex this index) w) = [sent (Invoke cl (IndicesDelete index [404]))]
  /\ trace (run c (refresh this index) w) = [sent (Invoke cl (IndicesRefresh index))].
Proof.
  cbv zeta. repeat apply conj.
  - unfold getById, prop; simpl.
    destruct (c _ (Invoke (client this) (Get index type id)) w) as [[r | e] w']; simpl;
      [reflexivity |].
    destruct (read_prop e "body") as [b | t]; simpl; [| reflexivity].
    destruct (read_prop b "found") as [f | t]; simpl; [| reflexivity].
    destruct (is_false f); reflexivity.
  - apply updateDocument_trace_only.
  - unfold getAll; simpl.
    destruct (c _ (Invoke (client this) (Search index type MatchAll [UidAsc])) w)
      as [[r | e] w']; reflexivity.
  - apply (searchByField_run c this index type field query w).
  - apply (deleteDocument_run c this index type id w).
  - rewrite deleteIndex_run. reflexivity.
  - unfold refresh; simpl.
    destruct (c _ (Invoke (client this) (IndicesRefresh index)) w) as [[r | e] w'];
      reflexivity.
Qed.

(** ** Sequences of operations on the reference store *)

Lemma satisfies_matches (q : Query) (s : Stored) : satisfies q s = matches q (s_source s).
Proof. destruct q; reflexivity. Qed.

Lemma newest_first_weaken (b b' : N) (l : list Stored) :
  (b <= b')%N -> newest_first b l -> newest_first b' l.
Proof. destruct l as [| s rest]; simpl; [auto |]. intros Hb [H1 H2]. split; [lia | exact H2]. Qed.

Lemma newest_first_below (b : N) (l : list Stored) :
  newest_first b l -> Forall (fun s => (s_seq s < b)%N) l.
Proof.
  revert b; induction l as [| s rest IH]; intros b; simpl; [constructor |].
  intros [H1 H2]. constructor; [exact H1 |].
  eapply List.Forall_impl; [| apply (IH _ H2)]. simpl. intros x Hx. lia.
Qed.

Lemma newest_first_filter (P : Stored -> bool) (b : N) (l : list Stored) :
  newest_first b l -> newest_first b (List.filter P l).
Proof.
  revert b; induction l as [| s rest IH]; intros b; simpl; [auto |].
  intros [H1 H2]. destruct (P s); simpl.
  - split; [exact H1 | apply IH; exact H2].
  - apply (newest_first_weaken (s_seq s)); [lia | apply IH; exact H2].
Qed.

Lemma insert_by_seq_last (s : Stored) (l : list Stored) :
  Forall (fun x => (s_seq x < s_seq s)%N) l -> insert_by_seq s l = (l ++ [s])%list.
Proof.
  induction 1 as [| x rest Hx _ IH]; simpl; [reflexivity |].
  destruct (N.leb_spec (s_seq s) (s_seq x)); [lia |]. rewrite IH. reflexivity.
Qed.

(** Sorting a list that has the newest first reverses it. *)
Lemma sort_by_seq_newest_first (b : N) (l : list Stored) :
  newest_first b l -> sort_by_seq l = rev l.
Proof.
  revert b; induction l as [| s rest IH]; intros b; simpl; [reflexivity |].
  intros [_ H2]. unfold sort_by_seq in *; simpl. rewrite (IH _ H2).
  apply insert_by_seq_last. apply List.Forall_rev. apply newest_first_below. exact H2.
Qed.

Lemma filter_in_index_all (index type : string) (P : Stored -> bool) (l : list Stored) :
  Forall (fun s => s_index s = index /\ s_type s = type) l ->
  List.filter (in_index index) l = l
  /\ List.filter (fun s => negb (in_index index s)) l = []
  /\ List.filter
       (fun s => String.eqb (s_index s) index && String.eqb (s_type s) type && P s) l
     = List.filter P l.
Proof.
  induction 1 as [| s rest [Hi Ht] _ (IH1 & IH2 & IH3)]; simpl; [auto |].
  assert (Hin : in_index index s = true).
  { unfold in_index. rewrite Hi. apply String.eqb_refl. }
  rewrite Hin, Hi, Ht, !String.eqb_refl; simpl.
  rewrite IH1, IH2, IH3. auto.
Qed.

Lemma rev_filter {A : Type} (P : A -> bool) (l : list A) :
  rev (List.filter P l) = List.filter P (rev l).
Proof.
  induction l as [| a l IH]; simpl; [reflexivity |].
  rewrite List.filter_app; simpl. destruct (P a); simpl; rewrite IH.
  - reflexivity.
  - rewrite app_nil_r. reflexivity.
Qed.

Lemma map_filter_source (q : Query) (l : list Stored) :
  map s_source (List.filter (satisfies q) l) = List.filter (matches q) (map s_source l).
Proof.
  induction l as [| s l IH]; simpl; [reflexivity |].
  rewrite satisfies_matches. destruct (matches q (s_source s)); simpl; rewrite IH; reflexivity.
Qed.

(** A search sorted by [_uid] on a tidy store: the matching documents, oldest
    first. *)
Lemma mem_search_tidy (address index type : string) (q : Query) (w : Cluster) :
  tidy address index type w ->
  has_index index w = true ->
  mem_search index type q [UidAsc] w =
    (Resolved (mkResponse
                 (mkSearchBody (map envelope (List.filter (satisfies q) (rev (docs w))))) 200),
     w).
Proof.
  intros (_ & Hs & Hall & Hseq & _ & _) Hex. unfold mem_search. rewrite Hex; simpl.
  rewrite Hs. destruct (filter_in_index_all index type (satisfies q) _ Hall) as (_ & _ & ->).
  rewrite (sort_by_seq_newest_first (next_seq w)) by (apply newest_first_filter; exact Hseq).
  rewrite rev_filter. reflexivity.
Qed.

Lemma map_source_envelope (l : list Stored) : map _source (map envelope l) = map s_source l.
Proof. induction l as [| s l IH]; simpl; [| rewrite IH]; reflexivity. Qed.

Lemma searchable_refreshed_twice (index type : string) (w : Cluster) :
  Forall (fun s => s_index s = index /\ s_type s = type) (docs w) ->
  Forall (fun s => s_index s = index /\ s_type s = type) (searchable w) ->
  searchable (refreshed index (refreshed index w)) = docs w.
Proof.
  intros Hd Hs. unfold refreshed; cbn [searchable docs].
  destruct (filter_in_index_all index type (fun _ => true) _ Hd) as (Hin & Hout & _).
  destruct (filter_in_index_all index type (fun _ => true) _ Hs) as (_ & HoutS & _).
  rewrite Hin, HoutS, List.filter_app, Hout. simpl. rewrite !app_nil_r. reflexivity.
Qed.

(** [createDocument] keeps a store tidy and puts the document at the head. *)
Lemma createDocument_tidy (this : Elastic) (index type : string) (doc : Body) (w : Cluster) :
  re_match index_re index = true ->
  tidy (node (client this)) index type w ->
  let w' := world (run MemClient (createDocument this index type doc) w) in
  outcome (run MemClient (createDocument this index type doc) w)
    = Resolved (new_id (next_seq w))
  /\ tidy (node (client this)) index type w'
  /\ docs w' = mkStored index type (next_seq w) (new_id (next_seq w)) doc :: docs w.
Proof.
  intros Hv (Hl & Hs & Hall & Hseq & Hex & Hids).
  rewrite createDocument_on_reference by auto. cbv zeta. cbn [outcome world].
  split; [reflexivity |].
  set (new := mkStored index type (next_seq w) (new_id (next_seq w)) doc).
  set (X := mkCluster (listening w)
              (if has_index index w then indices w else index :: indices w)
              (new :: docs w) (searchable w) (N.succ (next_seq w))).
  change (snd (mem_index index type doc "true" w)) with (refreshed index X).
  assert (Hall' : Forall (fun s => s_index s = index /\ s_type s = type) (docs X)).
  { constructor; [split; reflexivity | exact Hall]. }
  split; [| reflexivity].
  unfold tidy. split; [| split; [| split; [| split; [| split]]]].
  - exact Hl.
  - rewrite (searchable_refreshed_twice index type X Hall').
    + reflexivity.
    + change (searchable X) with (searchable w). rewrite Hs. exact Hall.
  - exact Hall'.
  - change (newest_first (N.succ (next_seq w)) (new :: docs w)).
    split; [simpl; lia | exact Hseq].
  - intros _.
    change (existsb (String.eqb index)
              (if has_index index w then indices w else index :: indices w) = true).
    destruct (has_index index w) eqn:E; [exact E |].
    simpl. rewrite String.eqb_refl. reflexivity.
  - constructor; [reflexivity | exact Hids].
Qed.

Lemma tidy_empty (address index type : string) :
  tidy address index type (empty_cluster address).
Proof.
  unfold tidy, empty_cluster; simpl.
  split; [reflexivity | split; [reflexivity | split; [constructor | split; [exact I |]]]].
  split; [| constructor].
  intros H; contradiction H; reflexivity.
Qed.

(** [createAll] on a tidy store: every document is stored, oldest first
    after those the store held. *)
Lemma createAll_tidy (this : Elastic) (index type : string) (ds : list Body) :
  forall w : Cluster,
    re_match index_re index = true ->
    tidy (node (client this)) index type w ->
    outcome (run MemClient (createAll this index type ds) w) = Resolved tt
    /\ tidy (node (client this)) index type
         (world (run MemClient (createAll this index type ds) w))
    /\ map s_source (rev (docs (world (run MemClient (createAll this index type ds) w))))
       = (map s_source (rev (docs w)) ++ ds)%list
    /\ (ds <> [] -> docs (world (run MemClient (createAll this index type ds) w)) <> []).
Proof.
  induction ds as [| d rest IH]; intros w Hv Ht; simpl createAll.
  - simpl. rewrite app_nil_r.
    split; [reflexivity | split; [exact Ht | split; [reflexivity |]]].
    intros H; contradiction H; reflexivity.
  - rewrite run_bind.
    destruct (createDocument_tidy this index type d w Hv Ht) as (Ho & Ht' & Hd).
    rewrite Ho. cbv zeta. cbn [outcome world].
    destruct (IH _ Hv Ht') as (Ho2 & Ht2 & Hd2 & _).
    split; [exact Ho2 |]. split; [exact Ht2 |]. split.
    + rewrite Hd2, Hd. simpl. rewrite map_app, <- app_assoc. reflexivity.
    + intros _ Hnil.
      apply (f_equal (fun l => length (map s_source (rev l)))) in Hnil.
      rewrite Hd2, Hd in Hnil. simpl in Hnil.
      rewrite length_app, length_map, length_app in Hnil. simpl in Hnil. lia.
Qed.

Lemma getAll_tidy (this : Elastic) (index type : string) (w : Cluster) :
  tidy (node (client this)) index type w ->
  has_index index w = true ->
  outcome (run MemClient (getAll this index type) w) = Resolved (map s_source (rev (docs w))).
Proof.
  intros Ht Hex. unfold getAll; simpl. unfold online.
  rewrite (proj1 Ht), String.eqb_refl.
  rewrite (mem_search_tidy _ _ _ MatchAll w Ht Hex); simpl.
  rewrite map_source_envelope.
  f_equal. f_equal. induction (rev (docs w)) as [| s l IH]; simpl; [| rewrite IH]; reflexivity.
Qed.

Lemma searchByField_tidy (this : Elastic) (index type field query : string) (w : Cluster) :
  tidy (node (client this)) index type w ->
  has_index index w = true ->
  outcome (run MemClient (searchByField this index type field query) w)
    = Resolved (List.filter (matches (Match field query)) (map s_source (rev (docs w)))).
Proof.
  intros Ht Hex. unfold searchByField; simpl. unfold online.
  rewrite (proj1 Ht), String.eqb_refl.
  rewrite (mem_search_tidy _ _ _ (Match field query) w Ht Hex); simpl.
  rewrite map_source_envelope, map_filter_source. reflexivity.
Qed.

(** X13: on the reference store, [getAll] after creating the documents of
    a non-empty list one after the other in a collection of an empty store
    returns exactly those documents, in the order of their creation. *)
Theorem getAll_after_createAll (this : Elastic) (index type : string) (ds : list Body) :
  re_match index_re index = true ->
  ds <> [] ->
  outcome (run MemClient
             (createAll this index type ds;; getAll this index type)
             (empty_cluster (node (client this))))
    = Resolved ds.
Proof.
  intros Hv Hne. rewrite run_bind.
  destruct (createAll_tidy this index type ds _ Hv (tidy_empty _ index type))
    as (Ho & Ht & Hd & Hdocs).
  rewrite Ho. cbv zeta. cbn [outcome].
  rewrite (getAll_tidy this index type _ Ht
             (proj1 (proj2 (proj2 (proj2 (proj2 Ht)))) (Hdocs Hne))).
  rewrite Hd. reflexivity.
Qed.

Lemma getAll_after_createAll_witness :
  outcome (run MemClient
             (createAll local "unit-test-elastic-index" "typeName"
                [keyed "keyName" "value1"; keyed "keyName" "value2"];;
              getAll local "unit-test-elastic-index" "typeName")
             fresh_cluster)
    = Resolved [keyed "keyName" "value1"; keyed "keyName" "value2"].
Proof.
  apply (getAll_after_createAll local "unit-test-elastic-index" "typeName"
           [keyed "keyName" "value1"; keyed "keyName" "value2"]).
  - reflexivity.
  - discriminate.
Defined.

(** X14: on the reference store, [searchByField] after creating the
    documents of a non-empty list in a collection of an empty store returns
    exactly the documents of the list whose field has a token of the
    query, in the order of their creation; documents without the field are
    left out. *)
Theorem searchByField_after_createAll (this : Elastic) (index type field query : string)
    (ds : list Body) :
  re_match index_re index = true ->
  ds <> [] ->
  outcome (run MemClient
             (createAll this index type ds;; searchByField this index type field query)
             (empty_cluster (node (client this))))
    = Resolved (List.filter (matches (Match field query)) ds).
Proof.
  intros Hv Hne. rewrite run_bind.
  destruct (createAll_tidy this index type ds _ Hv (tidy_empty _ index type))
    as (Ho & Ht & Hd & Hdocs).
  rewrite Ho. cbv zeta. cbn [outcome].
  rewrite (searchByField_tidy this index type field query _ Ht
             (proj1 (proj2 (proj2 (proj2 (proj2 Ht)))) (Hdocs Hne))).
  rewrite Hd. reflexivity.
Qed.

Lemma searchByField_after_createAll_witness :
  outcome (run MemClient
             (createAll local "unit-test-elastic-index" "typeName"
                [keyed "keyName" "aa"; keyed "other" "aa"; keyed "keyName" "bb aa";
                 keyed "keyName" "aab"];;
              searchByField local "unit-test-elastic-index" "typeName" "keyName" "aa")
             fresh_cluster)
    = Resolved [keyed "keyName" "aa"; keyed "keyName" "bb aa"].
Proof.
  rewrite (searchByField_after_createAll local "unit-test-elastic-index" "typeName"
             "keyName" "aa").
  - vm_compute. reflexivity.
  - reflexivity.
  - discriminate.
Defined.



(** ** Create, update, delete and read on the reference store *)

Lemma getById_on_reference_head (this : Elastic) (index type : string) (id : DocumentId)
    (s : Stored) (rest : list Stored) (w : Cluster) :
  node (client this) = listening w ->
  has_index index w = true ->
  docs w = s :: rest ->
  is_doc index type id s = true ->
  outcome (run MemClient (getById this index type id) w) = Resolved (Some (s_source s)).
Proof.
  intros Hn Hex Hd Hs. unfold getById; simpl. unfold online.
  rewrite Hn, String.eqb_refl. unfold mem_get. rewrite Hex, Hd; simpl.
  rewrite Hs. reflexivity.
Qed.

Lemma is_doc_refl (index type : string) (n : N) (id : DocumentId) (d : Body) :
  is_doc index type id (mkStored index type n id d) = true.
Proof. unfold is_doc; simpl. rewrite !String.eqb_refl. reflexivity. Qed.

Lemma find_filter_not (P : Stored -> bool) (l : list Stored) :
  List.find P (List.filter (fun s => negb (P s)) l) = None.
Proof.
  induction l as [| s l IH]; simpl; [reflexivity |].
  destruct (P s) eqn:E; simpl; [exact IH |]. rewrite E. exact IH.
Qed.

Lemma has_index_filter_out (index : string) (l : list string) :
  existsb (String.eqb index) (List.filter (fun i => negb (String.eqb index i)) l) = false.
Proof.
  induction l as [| i l IH]; simpl; [reflexivity |].
  destruct (String.eqb index i) eqn:E; simpl; [exact IH |]. rewrite E. exact IH.
Qed.

(** X15: on the reference store, whatever it holds, a document created
    under a valid name, then updated with [edited], is read back by
    [getById] as the merge of the two: the fields of [edited] replace the
    created ones and the other fields stay. *)
Theorem create_update_get (this : Elastic) (index type : string) (doc edited : Body)
    (w : Cluster) :
  node (client this) = listening w ->
  re_match index_re index = true ->
  outcome (run MemClient
             (id <- createDocument this index type doc;;
              updateDocument this index type id edited;;
              getById this index type id)
             w)
    = Resolved (Some (edited ∪ doc)).
Proof.
  intros Hn Hv.
  erewrite run_bind_resolved by (apply createDocument_on_reference; auto).
  pose proof (has_index_after_index index type doc "true" w) as Hex.
  set (id := new_id (next_seq w)).
  set (w1 := refreshed index (snd (mem_index index type doc "true" w))) in *.
  assert (Hd1 : docs w1 = mkStored index type (next_seq w) id doc :: docs w) by reflexivity.
  assert (Hex1 : has_index index w1 = true) by exact Hex.
  assert (Hl1 : listening w1 = listening w) by reflexivity.
  rewrite run_bind.
  assert (Hup : run MemClient (updateDocument this index type id edited) w1 =
                mkRun (Resolved true)
                  (refreshed index
                     (mkCluster (listening w1) (indices w1)
                        (map (merged index type id edited) (docs w1))
                        (searchable w1) (next_seq w1)))
                  [sent (Invoke (client this) (Update index type id edited "true"))]).
  { unfold updateDocument; simpl. unfold online. rewrite Hl1, Hn, String.eqb_refl.
    unfold mem_update. rewrite Hex1, Hd1; simpl.
    rewrite (is_doc_refl index type (next_seq w) id doc). reflexivity. }
  rewrite Hup. cbv zeta. cbn [outcome world].
  rewrite (getById_on_reference_head this index type id
             (mkStored index type (next_seq w) id (edited ∪ doc))
             (map (merged index type id edited) (docs w))).
  - reflexivity.
  - exact Hn.
  - exact Hex1.
  - cbn [docs refreshed]. rewrite Hd1; simpl. unfold merged at 1.
    rewrite (is_doc_refl index type (next_seq w) id doc). reflexivity.
  - apply is_doc_refl.
Qed.

Lemma create_update_get_witness :
  outcome (run MemClient
             (id <- createDocument local "unit-test-elastic-index" "typeName"
                      (keyed "keyName" "value");;
              updateDocument local "unit-test-elastic-index" "typeName" id
                (keyed "keyName" "editedValue");;
              getById local "unit-test-elastic-index" "typeName" id)
             fresh_cluster)
    = Resolved (Some (keyed "keyName" "editedValue")).
Proof.
  rewrite (create_update_get local "unit-test-elastic-index" "typeName"
             (keyed "keyName" "value") (keyed "keyName" "editedValue") fresh_cluster).
  - vm_compute. reflexivity.
  - reflexivity.
  - reflexivity.
Defined.

(** X16: on the reference store, whatever it holds, a document created
    under a valid name and then deleted is no longer found: [getById] with
    its id resolves with [undefined] and does not throw. *)
Theorem create_delete_get (this : Elastic) (index type : string) (doc : Body) (w : Cluster) :
  node (client this) = listening w ->
  re_match index_re index = true ->
  outcome (run MemClient
             (id <- createDocument this index type doc;;
              deleteDocument this index type id;;
              getById this index type id)
             w)
    = Resolved None.
Proof.
  intros Hn Hv.
  erewrite run_bind_resolved by (apply createDocument_on_reference; auto).
  pose proof (has_index_after_index index type doc "true" w) as Hex.
  set (id := new_id (next_seq w)).
  set (w1 := refreshed index (snd (mem_index index type doc "true" w))) in *.
  assert (Hd1 : docs w1 = mkStored index type (next_seq w) id doc :: docs w) by reflexivity.
  assert (Hex1 : has_index index w1 = true) by exact Hex.
  assert (Hl1 : listening w1 = listening w) by reflexivity.
  assert (Hin : existsb (is_doc index type id) (docs w1) = true).
  { rewrite Hd1; simpl. rewrite (is_doc_refl index type (next_seq w) id doc). reflexivity. }
  assert (Hon : String.eqb (node (client this)) (listening w1) = true).
  { rewrite Hl1, Hn. apply String.eqb_refl. }
  clearbody w1 id. clear Hd1 Hex Hl1.
  rewrite run_bind.
  assert (Hdel : run MemClient (deleteDocument this index type id) w1 =
                 mkRun (Resolved tt)
                   (refreshed index
                      (mkCluster (listening w1) (indices w1)
                         (List.filter (fun s => negb (is_doc index type id s)) (docs w1))
                         (searchable w1) (next_seq w1)))
                   [sent (Invoke (client this) (Delete index type id (Some "true")))]).
  { unfold deleteDocument; simpl. unfold online. rewrite Hon.
    unfold mem_delete. rewrite Hex1, Hin. reflexivity. }
  rewrite Hdel. cbv zeta. cbn [outcome world].
  unfold getById; simpl. unfold online, refreshed. cbn [listening]. rewrite Hon.
  unfold mem_get.
  change (has_index index _) with (has_index index w1). rewrite Hex1; simpl.
  rewrite find_filter_not. reflexivity.
Qed.

Lemma create_delete_get_witness :
  outcome (run MemClient
             (id <- createDocument local "unit-test-elastic-index" "typeName"
                      (keyed "keyName" "value");;
              deleteDocument local "unit-test-elastic-index" "typeName" id;;
              getById local "unit-test-elastic-index" "typeName" id)
             fresh_cluster)
    = Resolved None.
Proof.
  apply (create_delete_get local "unit-test-elastic-index" "typeName"
           (keyed "keyName" "value") fresh_cluster); reflexivity.
Defined.

(** X17: on the reference store, once [deleteIndex] has run, [getById] on
    that collection does not resolve with [undefined]: the store's
    index-not-found error has no [found] flag and is thrown again as it
    is.  Only a missing document of an existing collection reads as
    absent. *)
Theorem deleteIndex_then_getById (this : Elastic) (index type : string) (id : DocumentId)
    (w : Cluster) :
  node (client this) = listening w ->
  outcome (run MemClient (deleteIndex this index;; getById this index type id) w)
    = Rejected (ResponseError 404 "index_not_found_exception" (index_not_found index)).
Proof.
  intros Hn. rewrite run_bind, deleteIndex_run. cbv zeta. cbn [outcome world].
  simpl MemClient. cbn [MemClient mem_invoke]. unfold online at 1 2.
  rewrite Hn, String.eqb_refl.
  assert (Hgone : has_index index (snd (mem_indices_delete index [404] w)) = false
                  /\ listening (snd (mem_indices_delete index [404] w)) = listening w
                  /\ exists r, fst (mem_indices_delete index [404] w) = Resolved r).
  { unfold mem_indices_delete. destruct (has_index index w) eqn:E; simpl.
    - split; [apply has_index_filter_out | split; [reflexivity | eauto]].
    - split; [exact E | split; [reflexivity | eauto]]. }
  destruct Hgone as (Hgone & Hl & r & Hr). rewrite Hr. cbn [outcome world].
  unfold getById; simpl. unfold online. rewrite Hl, Hn, String.eqb_refl.
  unfold mem_get. rewrite Hgone. reflexivity.
Qed.

Lemma deleteIndex_then_getById_witness :
  outcome (run MemClient
             (deleteIndex local "unit-test";; getById local "unit-test" "typeName" "doc-0")
             fresh_cluster)
    = Rejected (ResponseError 404 "index_not_found_exception" (index_not_found "unit-test")).
Proof.
  apply (deleteIndex_then_getById local "unit-test" "typeName" "doc-0" fresh_cluster).
  reflexivity.
Defined.

(** X19: on the reference store, [updateDocument] of an id that no document
    of the collection and type has resolves with [false] and leaves the
    store as it was: nothing is created by an update. *)
Theorem updateDocument_missing_id (this : Elastic) (index type : string) (id : DocumentId)
    (doc : Body) (w : Cluster) :
  existsb (is_doc index type id) (docs w) = false ->
  run MemClient (updateDocument this index type id doc) w =
    mkRun (Resolved false) w [sent (Invoke (client this) (Update index type id doc "true"))].
Proof.
  intros Hno. unfold updateDocument; simpl. unfold online, mem_update.
  destruct (String.eqb (node (client this)) (listening w)); [| reflexivity].
  destruct (has_index index w); simpl; [| reflexivity].
  rewrite Hno. reflexivity.
Qed.

Lemma updateDocument_missing_id_witness :
  run MemClient (updateDocument local "unit-test" "typeName" "doc-0" (keyed "keyName" "v"))
      fresh_cluster
    = mkRun (Resolved false) fresh_cluster
        [sent (Invoke (client local)
                 (Update "unit-test" "typeName" "doc-0" (keyed "keyName" "v") "true"))].
Proof.
  apply (updateDocument_missing_id local "unit-test" "typeName" "doc-0"
           (keyed "keyName" "v") fresh_cluster).
  reflexivity.
Defined.

(** ** The refresh of [deleteDocument] *)

Lemma new_id_inj (n m : N) : new_id n = new_id m -> n = m.
Proof.
  unfold new_id. simpl. intros H. injection H as H. apply (inj pretty). exact H.
Qed.

Lemma mem_search_visible (index type : string) (q : Query) (b : N) (w : Cluster) :
  Forall (fun s => s_index s = index /\ s_type s = type) (searchable w) ->
  newest_first b (searchable w) ->
  has_index index w = true ->
  mem_search index type q [UidAsc] w =
    (Resolved (mkResponse
                 (mkSearchBody (map envelope (List.filter (satisfies q) (rev (searchable w)))))
                 200),
     w).
Proof.
  intros Hall Hseq Hex. unfold mem_search. rewrite Hex; simpl.
  destruct (filter_in_index_all index type (satisfies q) _ Hall) as (_ & _ & ->).
  rewrite (sort_by_seq_newest_first b) by (apply newest_first_filter; exact Hseq).
  rewrite rev_filter. reflexivity.
Qed.

Lemma getAll_visible (this : Elastic) (index type : string) (b : N) (w : Cluster) :
  node (client this) = listening w ->
  Forall (fun s => s_index s = index /\ s_type s = type) (searchable w) ->
  newest_first b (searchable w) ->
  has_index index w = true ->
  outcome (run MemClient (getAll this index type) w)
    = Resolved (map s_source (rev (searchable w))).
Proof.
  intros Hn Hall Hseq Hex. unfold getAll; simpl. unfold online.
  rewrite Hn, String.eqb_refl.
  rewrite (mem_search_visible _ _ MatchAll b w Hall Hseq Hex); simpl.
  rewrite map_source_envelope.
  f_equal. f_equal.
  induction (rev (searchable w)) as [| s l IH]; simpl; [| rewrite IH]; reflexivity.
Qed.

(** The documents stored before the id [new_id n] was given out are not
    the document of that id. *)
Lemma filter_other_ids (index type : string) (n : N) (l : list Stored) :
  Forall (fun s => s_id s = new_id (s_seq s)) l ->
  Forall (fun s => (s_seq s < n)%N) l ->
  List.filter (fun s => negb (is_doc index type (new_id n) s)) l = l.
Proof.
  induction 1 as [| s rest Hid _ IH]; intros Hlt; simpl; [reflexivity |].
  inversion Hlt as [| ? ? Hs Hrest]; subst.
  assert (Hne : String.eqb (s_id s) (new_id n) = false).
  { apply String.eqb_neq. rewrite Hid. intros Heq. apply new_id_inj in Heq. lia. }
  unfold is_doc at 1. rewrite Hne, andb_false_r; simpl. rewrite (IH Hrest). reflexivity.
Qed.

Lemma deleteDocument_on_reference (this : Elastic) (index type : string) (id : DocumentId)
    (w : Cluster) :
  node (client this) = listening w ->
  has_index index w = true ->
  existsb (is_doc index type id) (docs w) = true ->
  world (run MemClient (deleteDocument this index type id) w)
    = refreshed index
        (mkCluster (listening w) (indices w)
           (List.filter (fun s => negb (is_doc index type id s)) (docs w))
           (searchable w) (next_seq w))
  /\ outcome (run MemClient (deleteDocument this index type id) w) = Resolved tt
  /\ world (run MemClient (Earlier.deleteDocument this index type id) w)
     = mkCluster (listening w) (indices w)
         (List.filter (fun s => negb (is_doc index type id s)) (docs w))
         (searchable w) (next_seq w)
  /\ outcome (run MemClient (Earlier.deleteDocument this index type id) w) = Resolved tt.
Proof.
  intros Hn Hex Hin. unfold deleteDocument, Earlier.deleteDocument; simpl.
  unfold online. rewrite Hn, String.eqb_refl. unfold mem_delete. rewrite Hex, Hin.
  repeat split.
Qed.

(** X18: on the reference store, a document deleted by [deleteDocument]
    right after its creation is gone from the next [getAll], which returns
    the documents created before it; after the earlier revision's
    [deleteDocument], which asks for no refresh, the same [getAll] still
    lists the deleted document. *)
Theorem deleteDocument_visible_at_once (this : Elastic) (index type : string)
    (ds : list Body) (d : Body) :
  re_match index_re index = true ->
  outcome (run MemClient
             (createAll this index type ds;;
              id <- createDocument this index type d;;
              deleteDocument this index type id;;
              getAll this index type)
             (empty_cluster (node (client this))))
    = Resolved ds
  /\ outcome (run MemClient
                (createAll this index type ds;;
                 id <- createDocument this index type d;;
                 Earlier.deleteDocument this index type id;;
                 getAll this index type)
                (empty_cluster (node (client this))))
     = Resolved (ds ++ [d])%list.
Proof.
  intros Hv.
  destruct (createAll_tidy this index type ds _ Hv (tidy_empty _ index type))
    as (Ho & Ht & Hd & _).
  rewrite !(run_bind MemClient (createAll this index type ds)), Ho.
  cbv zeta. cbn [outcome].
  set (W := world (run MemClient (createAll this index type ds)
                     (empty_cluster (node (client this))))) in *.
  destruct (createDocument_tidy this index type d W Hv Ht) as (Ho1 & Ht1 & Hd1).
  rewrite !(run_bind MemClient (createDocument this index type d)), Ho1.
  cbv zeta. cbn [outcome].
  set (W1 := world (run MemClient (createDocument this index type d) W)) in *.
  destruct Ht as (_ & _ & _ & Hseq & _ & Hids).
  destruct Ht1 as (Hl1 & Hs1 & Hall1 & Hseq1 & Hex1 & _).
  assert (Hex1' : has_index index W1 = true) by (apply Hex1; rewrite Hd1; discriminate).
  assert (Hin : existsb (is_doc index type (new_id (next_seq W))) (docs W1) = true).
  { rewrite Hd1; simpl. rewrite is_doc_refl. reflexivity. }
  destruct (deleteDocument_on_reference this index type (new_id (next_seq W)) W1
              (eq_sym Hl1) Hex1' Hin) as (Hw2 & Ho2 & Hw2' & Ho2').
  assert (Hkept : List.filter (fun s => negb (is_doc index type (new_id (next_seq W)) s))
                    (docs W1) = docs W).
  { rewrite Hd1; simpl. rewrite is_doc_refl; simpl.
    apply filter_other_ids; [exact Hids | apply newest_first_below; exact Hseq]. }
  rewrite Hkept in Hw2, Hw2'.
  destruct (filter_in_index_all index type (fun _ => true) _ Hall1) as (_ & Hout1 & _).
  assert (Hall : Forall (fun s => s_index s = index /\ s_type s = type) (docs W)).
  { rewrite Hd1 in Hall1. inversion Hall1; assumption. }
  destruct (filter_in_index_all index type (fun _ => true) _ Hall) as (Hin0 & _ & _).
  split.
  - rewrite run_bind, Ho2, Hw2. cbv zeta. cbn [outcome].
    rewrite (getAll_visible this index type (next_seq W)).
    + unfold refreshed; cbn [searchable docs]. rewrite Hin0, Hs1, Hout1, app_nil_r.
      rewrite Hd, app_nil_l. reflexivity.
    + symmetry; exact Hl1.
    + unfold refreshed; cbn [searchable docs]. rewrite Hin0, Hs1, Hout1, app_nil_r.
      exact Hall.
    + unfold refreshed; cbn [searchable docs]. rewrite Hin0, Hs1, Hout1, app_nil_r.
      exact Hseq.
    + exact Hex1'.
  - rewrite run_bind, Ho2', Hw2'. cbv zeta. cbn [outcome].
    rewrite (getAll_visible this index type (next_seq W1)).
    + cbn [searchable]. rewrite Hs1, Hd1. simpl. rewrite map_app, Hd. reflexivity.
    + symmetry; exact Hl1.
    + cbn [searchable]. rewrite Hs1. exact Hall1.
    + cbn [searchable]. rewrite Hs1. exact Hseq1.
    + exact Hex1'.
Qed.

Lemma deleteDocument_visible_at_once_witness :
  outcome (run MemClient
             (createAll local "unit-test" "typeName" [keyed "keyName" "value1"];;
              id <- createDocument local "unit-test" "typeName" (keyed "keyName" "value2");;
              deleteDocument local "unit-test" "typeName" id;;
              getAll local "unit-test" "typeName")
             fresh_cluster)
    = Resolved [keyed "keyName" "value1"]
  /\ outcome (run MemClient
                (createAll local "unit-test" "typeName" [keyed "keyName" "value1"];;
                 id <- createDocument local "unit-test" "typeName" (keyed "keyName" "value2");;
                 Earlier.deleteDocument local "unit-test" "typeName" id;;
                 getAll local "unit-test" "typeName")
                fresh_cluster)
     = Resolved [keyed "keyName" "value1"; keyed "keyName" "value2"].
Proof.
  apply (deleteDocument_visible_at_once local "unit-test" "typeName"
           [keyed "keyName" "value1"] (keyed "keyName" "value2")).
  reflexivity.
Defined.
